(** * hb-command-center: the optimistic mutation layer of App.tsx

    A shallow embedding of the entity store, the mapper functions and the
    mutation handlers of [App.tsx] (the [AuthenticatedApp] component), of
    the create/drop handlers of [TaskBoard.tsx], [TaskCaptureModal.tsx] and
    [ProjectDetail.tsx], and of the progress editor of [Strategy.tsx].

    Conventions of the embedding.
    - A JavaScript string is a [string]; each [ascii] stands for one code
      unit.  Character classes ([\w], [\s], the whitespace of [trim]) and
      [toUpperCase] are modelled on the ASCII range; strings with code
      units above 127 are outside the model.
    - A JavaScript number that the code only uses as an integer (clock
      values, priorities, progress percentages) is an [N] or a [Z]; what
      [parseInt] gives is a [Strategy.Num], exact up to 2^53 only.
    - Reading [tbl[k]] on an object literal goes on to [Object.prototype]
      when [k] is no key of the literal ([JS.get]); a field filled from
      such a read can hold a member of the prototype ([JS.Text]).
    - An optional property ([projectId?: string]) is an [option]; [None]
      is [undefined].
    - React state setters called with an updater ([setTasks(prev => ...)])
      act on the store as it is when they run; values the handler closes
      over ([tasks], [projects], [goals], [agents], [departments], [isLive])
      are the snapshot the handler was created with. *)

From Stdlib Require Import List String Ascii Bool ZArith NArith Lia.
From Stdlib Require Import Numbers.DecimalString Numbers.DecimalPos.
Import ListNotations.
Local Open Scope string_scope.
Local Open Scope list_scope.

Set Implicit Arguments.

(** ** JavaScript helpers *)

Module JS.

(** Truthiness of a string: only the empty string is falsy. *)
Definition truthy (s : string) : bool :=
  match s with EmptyString => false | String _ _ => true end.

(** [a || d] where [a] is a string or [undefined]. *)
Definition or_else (a : option string) (d : string) : string :=
  match a with
  | Some s => if truthy s then s else d
  | None => d
  end.

(** [a || undefined] where [a] is a string or [undefined]. *)
Definition or_undefined (a : option string) : option string :=
  match a with
  | Some s => if truthy s then Some s else None
  | None => None
  end.

(** [x === y] where either side may be [undefined]. *)
Definition opt_eqb (x y : option string) : bool :=
  match x, y with
  | Some a, Some b => String.eqb a b
  | None, None => true
  | _, _ => false
  end.

Definition between (lo hi : nat) (c : ascii) : bool :=
  let n := nat_of_ascii c in (lo <=? n)%nat && (n <=? hi)%nat.

(** The class [\w] of a regular expression without the unicode flag. *)
Definition is_word (c : ascii) : bool :=
  between 65 90 c || between 97 122 c || between 48 57 c
  || Ascii.eqb c "_"%char.

(** The class [\s], which is also what [trim] removes (ASCII part:
    tab, line feed, vertical tab, form feed, carriage return, space). *)
Definition is_space (c : ascii) : bool :=
  between 9 13 c || Ascii.eqb c " "%char.

Fixpoint take_while (p : ascii -> bool) (s : string) : string :=
  match s with
  | String c r => if p c then String c (take_while p r) else EmptyString
  | EmptyString => EmptyString
  end.

Fixpoint drop_while (p : ascii -> bool) (s : string) : string :=
  match s with
  | String c r => if p c then drop_while p r else s
  | EmptyString => EmptyString
  end.

Fixpoint rev_onto (s acc : string) : string :=
  match s with
  | String c r => rev_onto r (String c acc)
  | EmptyString => acc
  end.

Definition rev (s : string) : string := rev_onto s EmptyString.

(** [s.trim()] *)
Definition trim (s : string) : string :=
  rev (drop_while is_space (rev (drop_while is_space s))).

(** [s.substring(a, b)] for [a <= b]. *)
Definition substring (a b : nat) (s : string) : string :=
  String.substring a (b - a) s.

Definition upper_char (c : ascii) : ascii :=
  if between 97 122 c then ascii_of_nat (nat_of_ascii c - 32) else c.

(** [s.toUpperCase()] *)
Fixpoint toUpperCase (s : string) : string :=
  match s with
  | String c r => String (upper_char c) (toUpperCase r)
  | EmptyString => EmptyString
  end.

(** [xs.join(sep)] *)
Fixpoint join (sep : string) (xs : list string) : string :=
  match xs with
  | [] => ""
  | [x] => x
  | x :: rest => x ++ sep ++ join sep rest
  end.

(** A number in a template literal, for integers. *)
Definition of_N (n : N) : string := NilZero.string_of_uint (N.to_uint n).
Definition of_Z (z : Z) : string := NilZero.string_of_int (Z.to_int z).

(** [s] without its prefix [pre], when it has that prefix. *)
Fixpoint after_prefix (pre s : string) : option string :=
  match pre, s with
  | EmptyString, _ => Some s
  | String a p, String b r => if Ascii.eqb a b then after_prefix p r else None
  | String _ _, EmptyString => None
  end.

(** [title.match(/^PR\.(\w+)/)?.[1]]: the capture group, or [undefined]
    when the expression does not match.  [\w+] is greedy and nothing
    follows it in the pattern, so the capture is the longest run of word
    characters after the literal prefix. *)
Definition match_PR (title : string) : option string :=
  match after_prefix "PR." title with
  | Some rest =>
      match take_while is_word rest with
      | EmptyString => None
      | code => Some code
      end
  | None => None
  end.

(** [title.replace(/^PR\.\w+\s*\|\s*/, '')].  The classes [\w], [\s] and
    the bar are pairwise disjoint, so the greedy runs are the only way the
    pattern can match. *)
Definition strip_PR (title : string) : string :=
  match after_prefix "PR." title with
  | Some rest =>
      match take_while is_word rest with
      | EmptyString => title
      | _ =>
          match drop_while is_space (drop_while is_word rest) with
          | String "|" tail => drop_while is_space tail
          | _ => title
          end
      end
  | None => title
  end.

(** One property of [{ ...x, ...updates }]: the update wins when its key
    is present. *)
Definition over {A} (old : A) (new : option A) : A :=
  match new with Some v => v | None => old end.

(** [xs.find(p)] *)
Definition find {A} (p : A -> bool) (xs : list A) : option A := List.find p xs.

(** The own properties of an object literal used as a table.  This is
    the whole of [tbl[k]] only where [k] is a token of a closed union
    ([Task['status']], [Task['priority']]), none of which names a member
    of [Object.prototype]; for any other key the read is [get] below. *)
Fixpoint lookup {V} (k : string) (tbl : list (string * V)) : option V :=
  match tbl with
  | [] => None
  | (k', v) :: rest => if String.eqb k k' then Some v else lookup k rest
  end.

(** The names under which [Object.prototype] answers: the members of the
    standard and of its annex B.  Each is a function, or for [__proto__]
    the prototype itself, hence truthy. *)
Definition proto_members : list string :=
  ["constructor"; "hasOwnProperty"; "isPrototypeOf"; "propertyIsEnumerable";
   "toLocaleString"; "toString"; "valueOf"; "__proto__";
   "__defineGetter__"; "__defineSetter__"; "__lookupGetter__";
   "__lookupSetter__"].

(** What [tbl[k]] finds: an own property, a member of [Object.prototype],
    or nothing ([undefined]). *)
Inductive Got (V : Type) : Type :=
| Own (v : V)
| Inherited (member : string)
| Missing.
Arguments Inherited {V} member.
Arguments Missing {V}.

(** [tbl[k]] for an object literal [tbl] and a string [k]. *)
Definition get {V} (k : string) (tbl : list (string * V)) : Got V :=
  match lookup k tbl with
  | Some v => Own v
  | None =>
      if List.existsb (String.eqb k) proto_members then Inherited k else Missing
  end.

(** What a field typed [string] holds after it is filled from such a read:
    a string, or the member of [Object.prototype] of that name. *)
Inductive Text := Str (s : string) | Member (name : string).

(** [tbl[k] || d] for a table of strings: a member of the prototype is
    truthy, so the default is not taken. *)
Definition get_or (g : Got string) (d : string) : Text :=
  match g with
  | Own v => Str (if truthy v then v else d)
  | Inherited m => Member m
  | Missing => Str d
  end.

(** What a call comes to: a value of the declared type; a [TypeError];
    or an object that is no value of the declared type, one of its fields
    holding the member of [Object.prototype] of the given name. *)
Inductive Outcome (A : Type) : Type :=
| Returns (a : A)
| Throws
| Misfit (member : string).
Arguments Throws {A}.
Arguments Misfit {A} member.

Fixpoint lookupZ {V} (k : Z) (tbl : list (Z * V)) : option V :=
  match tbl with
  | [] => None
  | (k', v) :: rest => if Z.eqb k k' then Some v else lookupZ k rest
  end.

End JS.

(** ** Data model (types.ts) *)

Inductive Priority := critical | high | medium | low.
Inductive TaskStatus := pending | in_progress | review | completed.
Inductive ProjectStatus := proj_active | proj_paused | proj_completed | proj_archived.
Inductive GoalStatus := on_track | at_risk | ahead | behind.
Inductive AgentStatus := agent_active | agent_idle | agent_working | agent_error | spawning.
Inductive ActivityType := act_task | act_decision | act_report | act_spawn | act_alert.

(** The string a value of the union type is at run time. *)
Definition priority_token (p : Priority) : string :=
  match p with
  | critical => "critical" | high => "high" | medium => "medium" | low => "low"
  end.

Definition status_token (s : TaskStatus) : string :=
  match s with
  | pending => "pending" | in_progress => "in_progress"
  | review => "review" | completed => "completed"
  end.

Definition project_status_token (s : ProjectStatus) : string :=
  match s with
  | proj_active => "active" | proj_paused => "paused"
  | proj_completed => "completed" | proj_archived => "archived"
  end.

Definition goal_status_token (s : GoalStatus) : string :=
  match s with
  | on_track => "on-track" | at_risk => "at-risk"
  | ahead => "ahead" | behind => "behind"
  end.

Definition TaskStatus_eqb (a b : TaskStatus) : bool :=
  String.eqb (status_token a) (status_token b).

Module Agent.
Record t := mk {
  id : string; name : string; role : string; emoji : JS.Text;
  status : AgentStatus; description : string; tasksCompleted : N;
  currentTask : option string; uptime : string;
  metrics : list (string * N) }.

Definition with_status_uptime (a : t) (s : AgentStatus) (u : string) : t :=
  mk (id a) (name a) (role a) (emoji a) s (description a)
     (tasksCompleted a) (currentTask a) u (metrics a).
Definition with_role (a : t) (r : string) : t :=
  mk (id a) (name a) r (emoji a) (status a) (description a)
     (tasksCompleted a) (currentTask a) (uptime a) (metrics a).
Definition with_status (a : t) (s : AgentStatus) : t :=
  with_status_uptime a s (uptime a).
End Agent.

Module Task.
Record t := mk {
  id : string; title : string; description : string;
  assignedTo : string; assignedBy : string;
  priority : Priority; status : TaskStatus;
  deadline : option string; createdAt : string; tags : list string;
  projectId : option string; projectName : option string;
  projectShortCode : option string; parentTaskId : option string }.

(** [Partial<Task>]: [None] is an absent key; for an optional property
    [Some None] is a key that is present and [undefined]. *)
Record patch := mk_patch {
  p_id : option string; p_title : option string; p_description : option string;
  p_assignedTo : option string; p_assignedBy : option string;
  p_priority : option Priority; p_status : option TaskStatus;
  p_deadline : option (option string); p_createdAt : option string;
  p_tags : option (list string);
  p_projectId : option (option string); p_projectName : option (option string);
  p_projectShortCode : option (option string);
  p_parentTaskId : option (option string) }.

Definition empty_patch : patch :=
  mk_patch None None None None None None None None None None None None None None.

(** [{ ...t, ...updates }] *)
Definition merge (x : t) (u : patch) : t :=
  mk (JS.over (id x) (p_id u)) (JS.over (title x) (p_title u))
     (JS.over (description x) (p_description u))
     (JS.over (assignedTo x) (p_assignedTo u)) (JS.over (assignedBy x) (p_assignedBy u))
     (JS.over (priority x) (p_priority u)) (JS.over (status x) (p_status u))
     (JS.over (deadline x) (p_deadline u)) (JS.over (createdAt x) (p_createdAt u))
     (JS.over (tags x) (p_tags u))
     (JS.over (projectId x) (p_projectId u)) (JS.over (projectName x) (p_projectName u))
     (JS.over (projectShortCode x) (p_projectShortCode u))
     (JS.over (parentTaskId x) (p_parentTaskId u)).

(** [{ ...t, status }] *)
Definition with_status (x : t) (s : TaskStatus) : t :=
  mk (id x) (title x) (description x) (assignedTo x) (assignedBy x)
     (priority x) s (deadline x) (createdAt x) (tags x)
     (projectId x) (projectName x) (projectShortCode x) (parentTaskId x).

(** [{ ...t, id: newId }] *)
Definition with_id (x : t) (i : string) : t :=
  mk i (title x) (description x) (assignedTo x) (assignedBy x)
     (priority x) (status x) (deadline x) (createdAt x) (tags x)
     (projectId x) (projectName x) (projectShortCode x) (parentTaskId x).

(** [{ ...t, projectId: undefined, projectName: undefined,
       projectShortCode: undefined }] *)
Definition unlink (x : t) : t :=
  mk (id x) (title x) (description x) (assignedTo x) (assignedBy x)
     (priority x) (status x) (deadline x) (createdAt x) (tags x)
     None None None (parentTaskId x).
End Task.

Module Project.
Record t := mk {
  id : string; title : string; shortCode : string;
  description : option string; status : ProjectStatus;
  department : string; departmentId : option string;
  leadAgentId : option string; targetDate : option string;
  taskCount : nat; completedTaskCount : nat;
  notes : option string; createdAt : string;
  parentProjectId : option string }.

Record patch := mk_patch {
  p_id : option string; p_title : option string; p_shortCode : option string;
  p_description : option (option string); p_status : option ProjectStatus;
  p_department : option string; p_departmentId : option (option string);
  p_leadAgentId : option (option string); p_targetDate : option (option string);
  p_taskCount : option nat; p_completedTaskCount : option nat;
  p_notes : option (option string); p_createdAt : option string;
  p_parentProjectId : option (option string) }.

Definition empty_patch : patch :=
  mk_patch None None None None None None None None None None None None None None.

Definition merge (x : t) (u : patch) : t :=
  mk (JS.over (id x) (p_id u)) (JS.over (title x) (p_title u))
     (JS.over (shortCode x) (p_shortCode u))
     (JS.over (description x) (p_description u))
     (JS.over (status x) (p_status u))
     (JS.over (department x) (p_department u))
     (JS.over (departmentId x) (p_departmentId u))
     (JS.over (leadAgentId x) (p_leadAgentId u))
     (JS.over (targetDate x) (p_targetDate u))
     (JS.over (taskCount x) (p_taskCount u))
     (JS.over (completedTaskCount x) (p_completedTaskCount u))
     (JS.over (notes x) (p_notes u)) (JS.over (createdAt x) (p_createdAt u))
     (JS.over (parentProjectId x) (p_parentProjectId u)).

Definition with_id (x : t) (i : string) : t :=
  mk i (title x) (shortCode x) (description x) (status x) (department x)
     (departmentId x) (leadAgentId x) (targetDate x) (taskCount x)
     (completedTaskCount x) (notes x) (createdAt x) (parentProjectId x).

(** [{ ...p, parentProjectId: undefined }] *)
Definition unlink_parent (x : t) : t :=
  mk (id x) (title x) (shortCode x) (description x) (status x) (department x)
     (departmentId x) (leadAgentId x) (targetDate x) (taskCount x)
     (completedTaskCount x) (notes x) (createdAt x) None.
End Project.

Module Goal.
Record initiative := mk_initiative {
  i_name : string; i_status : string; i_due : string }.

Record t := mk {
  id : string; title : string; description : option string;
  progress : Z; status : GoalStatus;
  ownerAgentId : option string; ownerName : string; ownerEmoji : JS.Text;
  targetDate : option string; initiatives : list initiative }.

Record patch := mk_patch {
  p_id : option string; p_title : option string;
  p_description : option (option string);
  p_progress : option Z; p_status : option GoalStatus;
  p_ownerAgentId : option (option string); p_ownerName : option string;
  p_ownerEmoji : option JS.Text; p_targetDate : option (option string);
  p_initiatives : option (list initiative) }.

Definition empty_patch : patch :=
  mk_patch None None None None None None None None None None.

Definition merge (x : t) (u : patch) : t :=
  mk (JS.over (id x) (p_id u)) (JS.over (title x) (p_title u))
     (JS.over (description x) (p_description u))
     (JS.over (progress x) (p_progress u)) (JS.over (status x) (p_status u))
     (JS.over (ownerAgentId x) (p_ownerAgentId u))
     (JS.over (ownerName x) (p_ownerName u))
     (JS.over (ownerEmoji x) (p_ownerEmoji u))
     (JS.over (targetDate x) (p_targetDate u))
     (JS.over (initiatives x) (p_initiatives u)).

Definition with_id (x : t) (i : string) : t :=
  mk i (title x) (description x) (progress x) (status x) (ownerAgentId x)
     (ownerName x) (ownerEmoji x) (targetDate x) (initiatives x).
End Goal.

Module FeatureRequest.
(** [status] and [priority] are kept as strings: the handlers store what
    they are given through [as any] / [as FeatureRequest] casts. *)
Record t := mk {
  id : string; title : string; description : option string;
  screenshotUrl : option string; sourceView : option string;
  status : string; priority : string;
  createdAt : string; updatedAt : string }.

(** The [updates] argument of the update handler. *)
Record patch := mk_patch {
  p_status : option string; p_priority : option string;
  p_title : option string; p_description : option (option string) }.

(** [{ ...fr, ...updates, updatedAt: stamp }] *)
Definition merge (x : t) (u : patch) (stamp : string) : t :=
  mk (id x) (JS.over (title x) (p_title u))
     (JS.over (description x) (p_description u))
     (screenshotUrl x) (sourceView x)
     (JS.over (status x) (p_status u)) (JS.over (priority x) (p_priority u))
     (createdAt x) stamp.

(** [{ ...fr, id: i, createdAt: c, updatedAt: u }] *)
Definition with_id_stamps (x : t) (i c u : string) : t :=
  mk i (title x) (description x) (screenshotUrl x) (sourceView x)
     (status x) (priority x) c u.
End FeatureRequest.

Module ActivityItem.
Record t := mk {
  id : string; agent : string; agentEmoji : JS.Text;
  action : string; detail : string; timestamp : string;
  type : ActivityType }.
End ActivityItem.

Record Department := mkDepartment { dept_id : string; dept_name : string }.

(** The entity store: the [useState] cells of [AuthenticatedApp] that the
    mutation handlers write. *)
Record Store := mkStore {
  agents : list Agent.t;
  tasks : list Task.t;
  projects : list Project.t;
  goals : list Goal.t;
  featureRequests : list FeatureRequest.t;
  activity : list ActivityItem.t }.

(** ** Raw remote records (what the gateway returns) *)

Record RawAgent := mkRawAgent {
  ra_id : string; ra_functional_name : string; ra_handle : string;
  ra_is_active : bool; ra_system_prompt : option string;
  ra_tool_access : option (list string) }.

Record RawTask := mkRawTask {
  rt_id : string; rt_description : option string;
  rt_assigned_to : option string; rt_priority : option Z;
  rt_status : option string; rt_completed_at : option string;
  rt_created_at : string; rt_project_id : option string;
  rt_parent_task_id : option string }.

Record RawProject := mkRawProject {
  rp_id : string; rp_title : option string; rp_description : option string;
  rp_status : option ProjectStatus; rp_dept_id : option string;
  rp_lead_agent_id : option string; rp_target_date : option string;
  rp_notes : option string; rp_created_at : string;
  rp_parent_project_id : option string }.

Record RawGoal := mkRawGoal {
  rg_id : string; rg_title : string; rg_description : option string;
  rg_progress : option Z; rg_status : option GoalStatus;
  rg_owner_agent_id : option string; rg_owner_name : option string;
  rg_target_date : option string;
  rg_initiatives : option (list Goal.initiative) }.

(** The first element of [result.data] after a create call. *)
Record Row := mkRow {
  row_id : string; row_created_at : string; row_updated_at : string }.

(** The [updates] argument of [api.updateAgent]. *)
Record AgentUpdates := mkAgentUpdates {
  au_system_prompt : option string; au_functional_name : option string;
  au_tool_access : option (list string); au_is_active : option bool }.

(** ** Remote gateway (api.ts): one constructor per write operation, with
    the arguments the handlers pass. *)

Inductive RemoteCall :=
| spawnAgent (handle functionalName systemPrompt : string)
| updateTaskStatus (taskId status : string)
| updateTaskFull (taskId : string) (description : option string)
    (priority : option Z) (assignedTo projectId : option string)
| createTask (description : string) (priority : Z)
    (assignedTo projectId parentTaskId : option string)
| deleteTask (taskId : string)
| updateProject (projectId : string)
    (status description targetDate notes : option string)
| updateGoal (goalId : string) (progress : option Z)
    (status title description target_date : option string)
| createGoal (title : string) (description ownerAgentId targetDate : option string)
    (quarter : string)
| deleteGoal (goalId : string)
| createProject (title : string) (deptId description parentProjectId : option string)
| deleteProject (projectId : string)
| createFeatureRequest (title : string)
    (description screenshotUrl sourceView priority : option string)
| updateFeatureRequest (id : string) (updates : FeatureRequest.patch)
| deleteFeatureRequest (id : string)
| updateAgent (agentId : string) (updates : AgentUpdates).

(** What a handler reads from a resolved call: the rows of [result.data]
    for a create (an absent [data] reads like an empty array), the agent
    record of [result.data] for a spawn, nothing otherwise. *)
Definition Resp (c : RemoteCall) : Type :=
  match c with
  | createTask _ _ _ _ _ | createGoal _ _ _ _ _ | createProject _ _ _ _
  | createFeatureRequest _ _ _ _ _ => list Row
  | spawnAgent _ _ _ => option RawAgent
  | _ => unit
  end.

(** ** Handlers as programs

    An [async] handler is a tree of the effects it performs, in order:
    clock reads, state setters, timers, and awaited gateway calls.  The
    continuation of [Await] receives [None] when the promise rejects (the
    handlers catch and only log) and [Some r] when it resolves. *)

Inductive Prog : Type :=
| Done
| Now (k : N -> Prog)
| SetAgents (f : list Agent.t -> list Agent.t) (k : Prog)
| SetTasks (f : list Task.t -> list Task.t) (k : Prog)
| SetProjects (f : list Project.t -> list Project.t) (k : Prog)
| SetGoals (f : list Goal.t -> list Goal.t) (k : Prog)
| SetFeatureRequests (f : list FeatureRequest.t -> list FeatureRequest.t) (k : Prog)
| SetActivity (f : list ActivityItem.t -> list ActivityItem.t) (k : Prog)
| SetTimeout (callback : Prog) (ms : N) (k : Prog)
| Await (c : RemoteCall) (k : option (Resp c) -> Prog).

Inductive Cell := Agents | Tasks | Projects | Goals | FeatureRequests | Activity.

Inductive Event :=
| Commit (cell : Cell)
| Timer (ms : N)
| Issued (c : RemoteCall)
| Settled (c : RemoteCall) (ok : bool).

(** The world a handler runs in: the store, the number of clock reads so
    far, the log of effects (oldest first) and the timers still pending. *)
Record World := mkWorld {
  store : Store;
  ticks : nat;
  log : list Event;
  timers : list (N * Prog) }.

Definition set_agents (f : list Agent.t -> list Agent.t) (s : Store) : Store :=
  mkStore (f (agents s)) (tasks s) (projects s) (goals s) (featureRequests s) (activity s).
Definition set_tasks (f : list Task.t -> list Task.t) (s : Store) : Store :=
  mkStore (agents s) (f (tasks s)) (projects s) (goals s) (featureRequests s) (activity s).
Definition set_projects (f : list Project.t -> list Project.t) (s : Store) : Store :=
  mkStore (agents s) (tasks s) (f (projects s)) (goals s) (featureRequests s) (activity s).
Definition set_goals (f : list Goal.t -> list Goal.t) (s : Store) : Store :=
  mkStore (agents s) (tasks s) (projects s) (f (goals s)) (featureRequests s) (activity s).
Definition set_featureRequests
  (f : list FeatureRequest.t -> list FeatureRequest.t) (s : Store) : Store :=
  mkStore (agents s) (tasks s) (projects s) (goals s) (f (featureRequests s)) (activity s).
Definition set_activity (f : list ActivityItem.t -> list ActivityItem.t) (s : Store) : Store :=
  mkStore (agents s) (tasks s) (projects s) (goals s) (featureRequests s) (f (activity s)).

Definition commit (cell : Cell) (g : Store -> Store) (w : World) : World :=
  mkWorld (g (store w)) (ticks w) (log w ++ [Commit cell]) (timers w).

Definition record (e : Event) (w : World) : World :=
  mkWorld (store w) (ticks w) (log w ++ [e]) (timers w).

Definition tick (w : World) : World :=
  mkWorld (store w) (S (ticks w)) (log w) (timers w).

Definition schedule (ms : N) (cb : Prog) (w : World) : World :=
  mkWorld (store w) (ticks w) (log w ++ [Timer ms]) (timers w ++ [(ms, cb)]).

Definition settled_ok {c} (r : option (Resp c)) : bool :=
  match r with Some _ => true | None => false end.

(** The environment: what the n-th clock read returns, and how the remote
    store answers each call. *)
Record Env := mkEnv {
  clock : nat -> N;
  gateway : forall c : RemoteCall, option (Resp c) }.

(** Where a handler stands after its synchronous prefix. *)
Inductive Paused :=
| Finished (w : World)
| Awaiting (w : World) (c : RemoteCall) (k : option (Resp c) -> Prog).

(** Run up to the first [await]. *)
Fixpoint start (clk : nat -> N) (p : Prog) (w : World) : Paused :=
  match p with
  | Done => Finished w
  | Now k => start clk (k (clk (ticks w))) (tick w)
  | SetAgents f k => start clk k (commit Agents (set_agents f) w)
  | SetTasks f k => start clk k (commit Tasks (set_tasks f) w)
  | SetProjects f k => start clk k (commit Projects (set_projects f) w)
  | SetGoals f k => start clk k (commit Goals (set_goals f) w)
  | SetFeatureRequests f k =>
      start clk k (commit FeatureRequests (set_featureRequests f) w)
  | SetActivity f k => start clk k (commit Activity (set_activity f) w)
  | SetTimeout cb ms k => start clk k (schedule ms cb w)
  | Await c k => Awaiting (record (Issued c) w) c k
  end.

(** Run to the end, every awaited call answered by the gateway and nothing
    else touching the store in between. *)
Fixpoint exec (env : Env) (p : Prog) (w : World) : World :=
  match p with
  | Done => w
  | Now k => exec env (k (clock env (ticks w))) (tick w)
  | SetAgents f k => exec env k (commit Agents (set_agents f) w)
  | SetTasks f k => exec env k (commit Tasks (set_tasks f) w)
  | SetProjects f k => exec env k (commit Projects (set_projects f) w)
  | SetGoals f k => exec env k (commit Goals (set_goals f) w)
  | SetFeatureRequests f k =>
      exec env k (commit FeatureRequests (set_featureRequests f) w)
  | SetActivity f k => exec env k (commit Activity (set_activity f) w)
  | SetTimeout cb ms k => exec env k (schedule ms cb w)
  | Await c k =>
      let r := gateway env c in
      exec env (k r) (record (Settled c (settled_ok r)) (record (Issued c) w))
  end.

(** Sequencing: [p] then [q]. *)
Fixpoint seq (p q : Prog) : Prog :=
  match p with
  | Done => q
  | Now k => Now (fun n => seq (k n) q)
  | SetAgents f k => SetAgents f (seq k q)
  | SetTasks f k => SetTasks f (seq k q)
  | SetProjects f k => SetProjects f (seq k q)
  | SetGoals f k => SetGoals f (seq k q)
  | SetFeatureRequests f k => SetFeatureRequests f (seq k q)
  | SetActivity f k => SetActivity f (seq k q)
  | SetTimeout cb ms k => SetTimeout cb ms (seq k q)
  | Await c k => Await c (fun r => seq (k r) q)
  end.

Notation "p ;; q" := (seq p q) (at level 61, right associativity).

(** [if (isLive) { try { await api.call(...) } catch (e) { log } }] for a
    call whose result is not read. *)
Definition fire (isLive : bool) (c : RemoteCall) : Prog :=
  if isLive then Await c (fun _ => Done) else Done.

(** ** Mapper layer (App.tsx) *)

Definition agentEmojiMap : list (string * string) :=
  [("@CEA", "🧠"); ("@Chief_of_Staff", "📋"); ("@Editor_in_Chief", "✍️");
   ("@Growth_Lead", "📈"); ("@VP_of_Engineering", "⚙️");
   ("@Meeting_Scribe", "📝"); ("@Clip_Extractor", "🎬");
   ("@Health_Monitor", "💚"); ("@Workflow_Builder", "🔧");
   ("@Project_Lead", "🎯")].

Definition mapAgent (a : RawAgent) : Agent.t :=
  Agent.mk (ra_id a) (ra_functional_name a) (ra_handle a)
    (JS.get_or (JS.get (ra_handle a) agentEmojiMap) "🤖")
    (if ra_is_active a then agent_active else agent_idle)
    (JS.or_else (option_map (JS.substring 0 200) (ra_system_prompt a)) "")
    0%N None "live"
    (match ra_tool_access a with
     | Some tools => [("tools", N.of_nat (List.length tools))]
     | None => []
     end).

(** The emoji table of [mapGoal]; [handleCreateGoal] declares the same
    one. *)
Definition goalEmojiMap : list (string * string) :=
  [("@CEA", "🧠"); ("@Chief_of_Staff", "📋"); ("@Editor_in_Chief", "✍️");
   ("@Growth_Lead", "📈"); ("@VP_of_Engineering", "⚙️")].

(** The two tables of [mapTask]. *)
Definition mapTask_priorityMap : list (Z * Priority) :=
  [(1, critical); (2, high); (3, medium); (4, low); (5, low)]%Z.

Definition mapTask_statusMap : list (string * TaskStatus) :=
  [("todo", pending); ("in_progress", in_progress);
   ("done", completed); ("failed", review)].

(** [statusMap[t.status] || 'pending']; an absent status reads the key
    "undefined", which nothing answers to. *)
Definition mapTask_status (status : option string) : JS.Got TaskStatus :=
  match status with
  | Some s => JS.get s mapTask_statusMap
  | None => JS.Missing
  end.

(** [project ? project.title.replace(/^PR\.\w+\s*\|\s*/, '') : undefined]:
    unlike the short code two lines above it, this read of [title] is not
    guarded, so a matched project without a title raises a [TypeError]. *)
Definition mapTask_projectName (project : option RawProject)
    : JS.Outcome (option string) :=
  match project with
  | Some p =>
      match rp_title p with
      | Some ti => JS.Returns (Some (JS.strip_PR ti))
      | None => JS.Throws
      end
  | None => JS.Returns None
  end.

(** The fields of the object literal are evaluated in order; none but
    [projectName] can raise, so a raise wins over a status that is no
    status. *)
Definition mapTask (t : RawTask) (agents : list RawAgent)
    (projects : list RawProject) : JS.Outcome Task.t :=
  let assignedAgent :=
    List.find (fun a => JS.opt_eqb (Some (ra_id a)) (rt_assigned_to t)) agents in
  let project :=
    List.find (fun p => JS.opt_eqb (Some (rp_id p)) (rt_project_id t)) projects in
  let title_of_project :=
    match project with Some p => rp_title p | None => None end in
  let shortCode :=
    JS.or_else (match title_of_project with
                | Some ti => JS.match_PR ti
                | None => None
                end) "" in
  let task (status : TaskStatus) (projectName : option string) :=
    Task.mk (rt_id t)
      (JS.or_else (option_map (JS.substring 0 80) (rt_description t)) "Untitled")
      (JS.or_else (rt_description t) "")
      (match assignedAgent with
       | Some a => if String.eqb (ra_handle a) "@CEA" then "cea" else ra_id a
       | None => "tiger"
       end)
      "cea"
      (match rt_priority t with
       | Some n => match JS.lookupZ n mapTask_priorityMap with
                   | Some p => p
                   | None => medium
                   end
       | None => medium
       end)
      status
      (JS.or_undefined (rt_completed_at t))
      (rt_created_at t)
      []
      (JS.or_undefined (rt_project_id t))
      projectName
      (JS.or_undefined (Some shortCode))
      (JS.or_undefined (rt_parent_task_id t)) in
  match mapTask_projectName project, mapTask_status (rt_status t) with
  | JS.Returns projectName, JS.Own status => JS.Returns (task status projectName)
  | JS.Returns projectName, JS.Missing => JS.Returns (task pending projectName)
  | JS.Returns _, JS.Inherited member => JS.Misfit member
  | JS.Throws, _ => JS.Throws
  | JS.Misfit member, _ => JS.Misfit member
  end.

(** [p.title?.match(/^PR\.(\w+)/)?.[1] || p.title?.substring(0, 4) || ''] *)
Definition mapProject_shortCode (title : option string) : string :=
  JS.or_else
    (match title with Some ti => JS.match_PR ti | None => None end)
    (JS.or_else (option_map (JS.substring 0 4) title) "").

Definition mapProject (p : RawProject) (departments : list Department)
    (tasks : list RawTask) : Project.t :=
  let dept :=
    List.find (fun d => JS.opt_eqb (Some (dept_id d)) (rp_dept_id p)) departments in
  let projectTasks :=
    List.filter (fun t => JS.opt_eqb (rt_project_id t) (Some (rp_id p))) tasks in
  let completedTasks :=
    List.filter (fun t => JS.opt_eqb (rt_status t) (Some "done")) projectTasks in
  Project.mk (rp_id p)
    (match rp_title p with Some ti => ti | None => "" end)
    (mapProject_shortCode (rp_title p))
    (JS.or_undefined (rp_description p))
    (match rp_status p with Some s => s | None => proj_active end)
    (JS.or_else (option_map dept_name dept) "Unknown")
    (rp_dept_id p) (rp_lead_agent_id p)
    (JS.or_undefined (rp_target_date p))
    (List.length projectTasks) (List.length completedTasks)
    (JS.or_undefined (rp_notes p))
    (rp_created_at p)
    (JS.or_undefined (rp_parent_project_id p)).

Definition mapGoal (g : RawGoal) (agents : list RawAgent) : Goal.t :=
  let ownerAgent :=
    List.find (fun a => JS.opt_eqb (Some (ra_id a)) (rg_owner_agent_id g)) agents in
  Goal.mk (rg_id g) (rg_title g)
    (JS.or_undefined (rg_description g))
    (match rg_progress g with
     | Some n => if Z.eqb n 0 then 0%Z else n
     | None => 0%Z
     end)
    (match rg_status g with Some s => s | None => on_track end)
    (rg_owner_agent_id g)
    (JS.or_else (option_map ra_functional_name ownerAgent)
       (JS.or_else (rg_owner_name g) "Unassigned"))
    (match ownerAgent with
     | Some a => JS.get_or (JS.get (ra_handle a) goalEmojiMap) "🤖"
     | None => JS.Str "🎯"
     end)
    (JS.or_undefined (rg_target_date g))
    (match rg_initiatives g with Some l => l | None => [] end).

(** ** Mutation engine (the handlers of [AuthenticatedApp]) *)

(** Arguments of the create handlers. *)
Record TaskData := mkTaskData {
  td_title : string; td_description : string; td_priority : Priority;
  td_assignedTo : string; td_projectId : option string;
  td_parentTaskId : option string }.

Record GoalData := mkGoalData {
  gd_title : string; gd_description : option string;
  gd_ownerAgentId : option string; gd_targetDate : option string }.

Record ProjectData := mkProjectData {
  pd_title : string; pd_deptId : option string;
  pd_description : option string; pd_parentProjectId : option string }.

Record FeatureRequestData := mkFeatureRequestData {
  fd_title : string; fd_description : option string;
  fd_screenshotUrl : option string; fd_sourceView : option string;
  fd_priority : option string }.

(** The activity entry every handler builds inline:
    [{ id: `a${Date.now()}`, agent, agentEmoji, action, detail,
       timestamp: 'Just now', type }]. *)
Definition activityItem (now : N) (agent emoji action detail : string)
    (type : ActivityType) : ActivityItem.t :=
  ActivityItem.mk ("a" ++ JS.of_N now) agent (JS.Str emoji) action detail
    "Just now" type.

(** [setActivity(prev => [{ ..., agent: 'Tiger', type: 'task' }, ...prev])];
    the clock is read when the entry is built. *)
Definition logTiger (action detail : string) : Prog :=
  Now (fun now =>
    SetActivity (cons (activityItem now "Tiger" "🐯" action detail act_task)) Done).

Definition logCEA (action detail : string) : Prog :=
  Now (fun now =>
    SetActivity (cons (activityItem now "The CEA" "🧠" action detail act_spawn)) Done).

(** [`temp-${Date.now()}`] *)
Definition tempId (now : N) : string := "temp-" ++ JS.of_N now.

(** [name.replace(/\s/g, '_')] *)
Fixpoint underscore_spaces (s : string) : string :=
  match s with
  | String c r =>
      String (if JS.is_space c then "_"%char else c) (underscore_spaces r)
  | EmptyString => EmptyString
  end.

(** [`Deployed "${name}" (${role})`] *)
Definition deployed (name role : string) : string :=
  let quote := String (ascii_of_nat 34) EmptyString in
  "Deployed " ++ quote ++ name ++ quote ++ " (" ++ role ++ ")".

Definition handleSpawnAgent_local (name emoji role description : string) : Prog :=
  Now (fun now =>
    let newAgent :=
      Agent.mk ("agent-" ++ JS.of_N now) name role (JS.Str emoji) spawning
               description
               0%N (Some "Initializing...") "0m" [] in
    SetAgents (fun prev => prev ++ [newAgent])
   (logCEA "Spawned agent" (deployed name role) ;;
    SetTimeout
      (SetAgents (List.map (fun a =>
         if String.eqb (Agent.id a) (Agent.id newAgent)
         then Agent.with_status_uptime a agent_active "1m" else a)) Done)
      3000 Done)).

Definition handleSpawnAgent (isLive : bool)
    (name emoji role description : string) : Prog :=
  if isLive then
    Await (spawnAgent ("@" ++ underscore_spaces name) role description)
      (fun result =>
         match result with
         | Some (Some data) =>
             SetAgents (fun prev => prev ++ [mapAgent data])
            (logCEA "Spawned agent"
               (deployed name role))
         | _ => handleSpawnAgent_local name emoji role description
         end)
  else handleSpawnAgent_local name emoji role description.

(** The table of [handleUpdateTaskStatus] (local status to remote). *)
Definition statusMap : list (string * string) :=
  [("pending", "todo"); ("in_progress", "in_progress");
   ("review", "in_progress"); ("completed", "done")].

(** [statusMap[status] || status] *)
Definition remoteStatus (status : TaskStatus) : string :=
  JS.or_else (JS.lookup (status_token status) statusMap) (status_token status).

(** [status === 'completed' ? 'Completed'
     : status === 'in_progress' ? 'Started' : 'Updated'] *)
Definition statusAction (status : TaskStatus) : string :=
  match status with
  | completed => "Completed"
  | in_progress => "Started"
  | _ => "Updated"
  end.

Definition handleUpdateTaskStatus (isLive : bool) (tasks : list Task.t)
    (taskId : string) (status : TaskStatus) : Prog :=
  fire isLive (updateTaskStatus taskId (remoteStatus status)) ;;
  SetTasks (List.map (fun t =>
    if String.eqb (Task.id t) taskId then Task.with_status t status else t))
  (match List.find (fun t => String.eqb (Task.id t) taskId) tasks with
   | Some task =>
       logTiger (statusAction status) (Task.title task)
   | None => Done
   end).

(** The table of the task write handlers (local priority to remote). *)
Definition priorityMap : list (string * Z) :=
  [("critical", 1); ("high", 2); ("medium", 3); ("low", 4)]%Z.

(** The value of [updates.k] for an optional property: [undefined] when the
    key is absent as well as when it is present and [undefined]. *)
Definition read {A} (k : option (option A)) : option A :=
  match k with Some v => v | None => None end.

(** [if (v) ...] for a string-valued key. *)
Definition given (k : option string) : bool :=
  match k with Some s => JS.truthy s | None => false end.

Definition present {A} (k : option A) : bool :=
  match k with Some _ => true | None => false end.

Definition taskChanges (updates : Task.patch) : list string :=
  (if given (Task.p_title updates) then ["title"] else []) ++
  (if given (Task.p_description updates) then ["description"] else []) ++
  (match Task.p_priority updates with
   | Some p => [("priority → " ++ priority_token p)%string]
   | None => []
   end) ++
  (if given (Task.p_assignedTo updates) then ["assignee"] else []) ++
  (if present (read (Task.p_projectId updates)) then ["project"] else []).

Definition handleUpdateTask (isLive : bool) (tasks : list Task.t)
    (taskId : string) (updates : Task.patch) : Prog :=
  SetTasks (List.map (fun t =>
    if String.eqb (Task.id t) taskId then Task.merge t updates else t))
  (fire isLive
     (updateTaskFull taskId
        (if given (Task.p_title updates) then Task.p_title updates
         else Task.p_description updates)
        (match Task.p_priority updates with
         | Some p => JS.lookup (priority_token p) priorityMap
         | None => None
         end)
        (Task.p_assignedTo updates)
        (read (Task.p_projectId updates))) ;;
   match List.find (fun t => String.eqb (Task.id t) taskId) tasks with
   | Some task =>
       logTiger "Updated task"
         (Task.title task ++ ": " ++ JS.join ", " (taskChanges updates))
   | None => Done
   end).

Section Engine.

(** [new Date(ms).toISOString()], a function of the runtime. *)
Variable toISOString : N -> string.

Definition handleCreateTask (isLive : bool) (projects : list Project.t)
    (taskData : TaskData) : Prog :=
  let project :=
    List.find (fun p => JS.opt_eqb (Some (Project.id p)) (td_projectId taskData))
              projects in
  Now (fun t_id => Now (fun t_created =>
    let tempTask :=
      Task.mk (tempId t_id) (td_title taskData) (td_description taskData)
        (td_assignedTo taskData) "tiger" (td_priority taskData) pending
        None (toISOString t_created) []
        (td_projectId taskData)
        (option_map (fun p => JS.strip_PR (Project.title p)) project)
        (option_map Project.shortCode project)
        (td_parentTaskId taskData) in
    SetTasks (cons tempTask)
   ((if isLive then
       Await (createTask (td_description taskData)
                (match JS.lookup (priority_token (td_priority taskData)) priorityMap with
                 | Some n => if Z.eqb n 0 then 3%Z else n
                 | None => 3%Z
                 end)
                (if String.eqb (td_assignedTo taskData) "tiger" then None
                 else Some (td_assignedTo taskData))
                (td_projectId taskData) (td_parentTaskId taskData))
         (fun result =>
            match result with
            | Some (row :: _) =>
                SetTasks (List.map (fun t =>
                  if String.eqb (Task.id t) (Task.id tempTask)
                  then Task.with_id tempTask (row_id row) else t)) Done
            | _ => Done
            end)
     else Done) ;;
    logTiger "Created task" (td_title taskData)))).

Definition handleDeleteTask (isLive : bool) (tasks : list Task.t)
    (taskId : string) : Prog :=
  let task := List.find (fun t => String.eqb (Task.id t) taskId) tasks in
  SetTasks (List.filter (fun t => negb (String.eqb (Task.id t) taskId)))
  (fire isLive (deleteTask taskId) ;;
   match task with
   | Some task => logTiger "Deleted task" (Task.title task)
   | None => Done
   end).

Definition projectChanges (updates : Project.patch) : list string :=
  (match Project.p_status updates with
   | Some s => [("status → " ++ project_status_token s)%string]
   | None => []
   end) ++
  (if present (read (Project.p_description updates)) then ["description"] else []) ++
  (if present (read (Project.p_notes updates)) then ["notes"] else []) ++
  (if present (read (Project.p_targetDate updates)) then ["target date"] else []).

Definition handleUpdateProject (isLive : bool) (projects : list Project.t)
    (projectId : string) (updates : Project.patch) : Prog :=
  SetProjects (List.map (fun p =>
    if String.eqb (Project.id p) projectId then Project.merge p updates else p))
  (fire isLive
     (updateProject projectId
        (option_map project_status_token (Project.p_status updates))
        (read (Project.p_description updates))
        (read (Project.p_targetDate updates))
        (read (Project.p_notes updates))) ;;
   match List.find (fun p => String.eqb (Project.id p) projectId) projects with
   | Some project =>
       logTiger "Updated project"
         (Project.shortCode project ++ ": " ++ JS.join ", " (projectChanges updates))
   | None => Done
   end).

Definition goalChanges (updates : Goal.patch) : list string :=
  (match Goal.p_progress updates with
   | Some n => [("progress → " ++ JS.of_Z n ++ "%")%string]
   | None => []
   end) ++
  (match Goal.p_status updates with
   | Some s => [("status → " ++ goal_status_token s)%string]
   | None => []
   end) ++
  (if given (Goal.p_title updates) then ["title"] else []) ++
  (if present (read (Goal.p_description updates)) then ["description"] else []) ++
  (if present (read (Goal.p_targetDate updates)) then ["target date"] else []).

Definition handleUpdateGoal (isLive : bool) (goals : list Goal.t)
    (goalId : string) (updates : Goal.patch) : Prog :=
  SetGoals (List.map (fun g =>
    if String.eqb (Goal.id g) goalId then Goal.merge g updates else g))
  (fire isLive
     (updateGoal goalId (Goal.p_progress updates)
        (option_map goal_status_token (Goal.p_status updates))
        (Goal.p_title updates)
        (read (Goal.p_description updates))
        (read (Goal.p_targetDate updates))) ;;
   match List.find (fun g => String.eqb (Goal.id g) goalId) goals with
   | Some goal =>
       logTiger "Updated goal"
         (JS.or_else (Goal.p_title updates) (Goal.title goal) ++ ": "
          ++ JS.join ", " (goalChanges updates))
   | None => Done
   end).

Definition handleCreateGoal (isLive : bool) (agents : list Agent.t)
    (data : GoalData) : Prog :=
  let ownerAgent :=
    if given (gd_ownerAgentId data)
    then List.find (fun a => JS.opt_eqb (Some (Agent.id a)) (gd_ownerAgentId data))
                   agents
    else None in
  Now (fun t_id =>
    let tempGoal :=
      Goal.mk (tempId t_id) (gd_title data) None 0%Z on_track
        (gd_ownerAgentId data)
        (JS.or_else (option_map Agent.name ownerAgent) "Unassigned")
        (match ownerAgent with
         | Some a => JS.get_or (JS.get (Agent.role a) goalEmojiMap) "🤖"
         | None => JS.Str "🎯"
         end)
        (gd_targetDate data) [] in
    SetGoals (fun prev => prev ++ [tempGoal])
   ((if isLive then
       Await (createGoal (gd_title data) (gd_description data)
                (gd_ownerAgentId data) (gd_targetDate data) "Q1-2026")
         (fun result =>
            match result with
            | Some (row :: _) =>
                SetGoals (List.map (fun g =>
                  if String.eqb (Goal.id g) (Goal.id tempGoal)
                  then Goal.with_id tempGoal (row_id row) else g)) Done
            | _ => Done
            end)
     else Done) ;;
    logTiger "Created goal" (gd_title data))).

Definition handleDeleteGoal (isLive : bool) (goals : list Goal.t)
    (goalId : string) : Prog :=
  let goal := List.find (fun g => String.eqb (Goal.id g) goalId) goals in
  SetGoals (List.filter (fun g => negb (String.eqb (Goal.id g) goalId)))
  (fire isLive (deleteGoal goalId) ;;
   match goal with
   | Some goal => logTiger "Deleted goal" (Goal.title goal)
   | None => Done
   end).

(** [data.title.match(/^PR\.(\w+)/)?.[1] ||
     data.title.substring(0, 4).toUpperCase()] *)
Definition createProject_shortCode (title : string) : string :=
  JS.or_else (JS.match_PR title) (JS.toUpperCase (JS.substring 0 4 title)).

Definition handleCreateProject (isLive : bool) (departments : list Department)
    (projects : list Project.t) (data : ProjectData) : Prog :=
  let dept :=
    List.find (fun d => JS.opt_eqb (Some (dept_id d)) (pd_deptId data)) departments in
  let parentProject :=
    if given (pd_parentProjectId data)
    then List.find (fun p => JS.opt_eqb (Some (Project.id p)) (pd_parentProjectId data))
                   projects
    else None in
  Now (fun t_id => Now (fun t_created =>
    let tempProject :=
      Project.mk (tempId t_id) (pd_title data)
        (createProject_shortCode (pd_title data))
        (pd_description data) proj_active
        (JS.or_else (option_map dept_name dept)
           (JS.or_else (option_map Project.department parentProject) "Unknown"))
        (if given (pd_deptId data) then pd_deptId data
         else match parentProject with
              | Some p => Project.departmentId p
              | None => None
              end)
        None None 0 0 None (toISOString t_created)
        (pd_parentProjectId data) in
    SetProjects (cons tempProject)
   ((if isLive then
       Await (createProject (pd_title data) (pd_deptId data) (pd_description data)
                (pd_parentProjectId data))
         (fun result =>
            match result with
            | Some (row :: _) =>
                SetProjects (List.map (fun p =>
                  if String.eqb (Project.id p) (Project.id tempProject)
                  then Project.with_id tempProject (row_id row) else p)) Done
            | _ => Done
            end)
     else Done) ;;
    logTiger "Created project" (pd_title data)))).

Definition handleDeleteProject (isLive : bool) (projects : list Project.t)
    (projectId : string) : Prog :=
  let project :=
    List.find (fun p => String.eqb (Project.id p) projectId) projects in
  SetProjects (fun prev =>
    List.map (fun p =>
      if JS.opt_eqb (Project.parentProjectId p) (Some projectId)
      then Project.unlink_parent p else p)
      (List.filter (fun p => negb (String.eqb (Project.id p) projectId)) prev))
 (SetTasks (List.map (fun t =>
    if JS.opt_eqb (Task.projectId t) (Some projectId) then Task.unlink t else t))
  (fire isLive (deleteProject projectId) ;;
   match project with
   | Some project => logTiger "Deleted project" (Project.title project)
   | None => Done
   end)).

Definition handleCreateFeatureRequest (isLive : bool)
    (data : FeatureRequestData) : Prog :=
  Now (fun t_id => Now (fun t_created => Now (fun t_updated =>
    let tempFr :=
      FeatureRequest.mk (tempId t_id) (fd_title data) (fd_description data)
        (fd_screenshotUrl data) (fd_sourceView data) "new"
        (JS.or_else (fd_priority data) "medium")
        (toISOString t_created) (toISOString t_updated) in
    SetFeatureRequests (cons tempFr)
   ((if isLive then
       Await (createFeatureRequest (fd_title data) (fd_description data)
                (fd_screenshotUrl data) (fd_sourceView data) (fd_priority data))
         (fun result =>
            match result with
            | Some (row :: _) =>
                SetFeatureRequests (List.map (fun fr =>
                  if String.eqb (FeatureRequest.id fr) (FeatureRequest.id tempFr)
                  then FeatureRequest.with_id_stamps tempFr (row_id row)
                         (row_created_at row) (row_updated_at row)
                  else fr)) Done
            | _ => Done
            end)
     else Done) ;;
    logTiger "Captured idea" (fd_title data))))).

(** The clock is read once here; the source reads it inside the [map]
    callback, once per element whose id matches. *)
Definition handleUpdateFeatureRequest (isLive : bool) (id : string)
    (updates : FeatureRequest.patch) : Prog :=
  Now (fun t =>
    SetFeatureRequests (List.map (fun fr =>
      if String.eqb (FeatureRequest.id fr) id
      then FeatureRequest.merge fr updates (toISOString t) else fr))
    (fire isLive (updateFeatureRequest id updates))).

Definition handleDeleteFeatureRequest (isLive : bool) (id : string) : Prog :=
  SetFeatureRequests
    (List.filter (fun fr => negb (String.eqb (FeatureRequest.id fr) id)))
    (fire isLive (deleteFeatureRequest id)).

Definition handleUpdateAgent (isLive : bool) (agentId : string)
    (updates : AgentUpdates) : Prog :=
  fire isLive (updateAgent agentId updates) ;;
  SetAgents (List.map (fun a =>
    if negb (String.eqb (Agent.id a) agentId) then a
    else
      let updated :=
        if given (au_functional_name updates)
        then Agent.with_role a (JS.or_else (au_functional_name updates) "")
        else a in
      match au_is_active updates with
      | Some b => Agent.with_status updated (if b then agent_active else agent_idle)
      | None => updated
      end)) Done.

(** [pendingTaskCount] and [newIdeaCount]. *)
Definition pendingTaskCount (tasks : list Task.t) : nat :=
  List.length (List.filter (fun t =>
    String.eqb (Task.assignedTo t) "tiger"
    && negb (TaskStatus_eqb (Task.status t) completed)) tasks).

Definition newIdeaCount (frs : list FeatureRequest.t) : nat :=
  List.length (List.filter (fun fr => String.eqb (FeatureRequest.status fr) "new") frs).

End Engine.

(** ** Components: the entry points through which the operator reaches the
    handlers.  A component receives the handlers as props; here they are
    function arguments.  View-only state the components also reset (form
    fields, drag highlights, modal flags) is left out. *)

Module TaskBoard.

(** The [newTask] form state. *)
Record NewTask := mkNewTask {
  title : string; description : string; priority : Priority;
  assignedTo : string; projectId : string }.

Definition handleCreateTask (onCreateTask : option (TaskData -> Prog))
    (newTask : NewTask) : Prog :=
  match onCreateTask with
  | None => Done
  | Some create =>
      if negb (JS.truthy (JS.trim (title newTask))) then Done
      else create
        (mkTaskData (JS.trim (title newTask))
           (JS.or_else (Some (JS.trim (description newTask)))
                       (JS.trim (title newTask)))
           (priority newTask) (assignedTo newTask)
           (JS.or_undefined (Some (projectId newTask)))
           None)
  end.

(** [handleDrop(e, targetStatus)]: [taskId] is what the drag carries
    ([e.dataTransfer.getData('text/plain')]); [targetStatus] is the key of
    the column dropped on, one of the four status tokens. *)
Definition handleDrop (tasks : list Task.t)
    (onUpdateTaskStatus : string -> TaskStatus -> Prog)
    (taskId : string) (targetStatus : TaskStatus) : Prog :=
  if JS.truthy taskId then
    match List.find (fun t => String.eqb (Task.id t) taskId) tasks with
    | Some task =>
        if negb (TaskStatus_eqb (Task.status task) targetStatus)
        then onUpdateTaskStatus taskId targetStatus
        else Done
    | None => Done
    end
  else Done.

End TaskBoard.

Module TaskCaptureModal.

Definition handleSubmit (onSubmit : TaskData -> Prog)
    (title : string) (priority : Priority) (assignedTo projectId : string) : Prog :=
  if negb (JS.truthy (JS.trim title)) then Done
  else onSubmit
    (mkTaskData (JS.trim title) (JS.trim title) priority assignedTo
       (JS.or_undefined (Some projectId)) None).

End TaskCaptureModal.

Module ProjectDetail.

Definition handleCreateTask (project : Project.t) (onCreateTask : TaskData -> Prog)
    (newTitle : string) (newPriority : Priority) (newAssignee : string) : Prog :=
  if negb (JS.truthy (JS.trim newTitle)) then Done
  else onCreateTask
    (mkTaskData (JS.trim newTitle) (JS.trim newTitle) newPriority newAssignee
       (Some (Project.id project)) None).

End ProjectDetail.

Module Strategy.

Definition digit (radix : Z) (c : ascii) : option Z :=
  let n := Z.of_nat (nat_of_ascii c) in
  let v :=
    if JS.between 48 57 c then Some (n - 48)%Z
    else if JS.between 97 122 c then Some (n - 87)%Z
    else if JS.between 65 90 c then Some (n - 55)%Z
    else None in
  match v with
  | Some d => if (d <? radix)%Z then Some d else None
  | None => None
  end.

(** The value of the longest prefix of digits; [None] when there is none. *)
Fixpoint digits (radix : Z) (s : string) (acc : option Z) : option Z :=
  match s with
  | String c r =>
      match digit radix c with
      | Some d =>
          digits radix r
            (Some (match acc with Some a => a * radix + d | None => d end)%Z)
      | None => acc
      end
  | EmptyString => acc
  end.

(** A number as [parseInt] gives it.  An integer of magnitude at most
    2^53 is a double and is held exactly; beyond that the result is some
    double of magnitude at least 2^53 (the nearest one, which may be an
    infinity), of which the model keeps the sign only. *)
Inductive Num := NaN | Int (z : Z) | Above | Below.

Definition toNum (z : Z) : Num :=
  if (2 ^ 53 <? z)%Z then Above
  else if (z <? - 2 ^ 53)%Z then Below
  else Int z.

(** The integer that [parseInt(s)], called without a radix, reads off the
    front of [s]: leading whitespace, a sign, an optional hexadecimal
    prefix, then the longest run of digits; [None] when there is no
    digit. *)
Definition mathInt (s : string) : option Z :=
  let s := JS.drop_while JS.is_space s in
  let '(sign, s) :=
    match s with
    | String "-" r => ((-1)%Z, r)
    | String "+" r => (1%Z, r)
    | _ => (1%Z, s)
    end in
  let '(radix, s) :=
    match s with
    | String "0" (String "x" r) => (16%Z, r)
    | String "0" (String "X" r) => (16%Z, r)
    | _ => (10%Z, s)
    end in
  option_map (Z.mul sign) (digits radix s None).

(** [parseInt(s)]: the number for that integer, [NaN] when there is
    none. *)
Definition parseInt (s : string) : Num :=
  match mathInt s with
  | Some n => toNum n
  | None => NaN
  end.

(** [Math.min(100, Math.max(0, parseInt(e.target.value) || 0))]: [NaN]
    and zero are falsy; a double of 2^53 or more is cut to 100 by
    [Math.min], one of -2^53 or less is raised to 0 by [Math.max]. *)
Definition clampInput (value : string) : Z :=
  match parseInt value with
  | NaN => Z.min 100 (Z.max 0 0)
  | Int n => Z.min 100 (Z.max 0 (if Z.eqb n 0 then 0%Z else n))
  | Above => 100%Z
  | Below => Z.min 100 0
  end.

(** The progress editor: which goal is being edited and the value held. *)
Record Editor := mkEditor {
  editingProgress : option string;
  progressValue : Z }.

Definition startProgressEdit (goalId : string) (currentProgress : Z) : Editor :=
  mkEditor (Some goalId) currentProgress.

Definition onChange (ed : Editor) (value : string) : Editor :=
  mkEditor (editingProgress ed) (clampInput value).

Definition progressPatch (v : Z) : Goal.patch :=
  Goal.mk_patch None None None (Some v) None None None None None None.

Definition saveProgress (onUpdateGoal : option (string -> Goal.patch -> Prog))
    (ed : Editor) (goalId : string) : Prog :=
  match onUpdateGoal with
  | Some update => update goalId (progressPatch (progressValue ed))
  | None => Done
  end.

End Strategy.

Definition emptyStore : Store := mkStore [] [] [] [] [] [].
Definition freshWorld (s : Store) : World := mkWorld s 0 [] [].

(** ** Interleaving: what happens while a call is in flight *)

Definition paused_world (p : Paused) : World :=
  match p with Finished w => w | Awaiting w _ _ => w end.

Definition paused_store (p : Paused) : Store := store (paused_world p).

(** The rows a resolved create call carries. *)
Definition rows_of (c : RemoteCall) : option (Resp c) -> list Row :=
  match c as c0 return option (Resp c0) -> list Row with
  | createTask _ _ _ _ _ | createGoal _ _ _ _ _ | createProject _ _ _ _
  | createFeatureRequest _ _ _ _ _ =>
      fun r => match r with Some rows => rows | None => [] end
  | _ => fun _ => []
  end.

(** [result.data?.[0]] of the call a paused handler waits on. *)
Definition answered (env : Env) (p : Paused) : option Row :=
  match p with
  | Awaiting _ c _ => List.hd_error (rows_of c (gateway env c))
  | Finished _ => None
  end.

(** The awaited call settles after [edits] (the work of other handlers
    that ran meanwhile) has been applied to the store; the handler then runs
    to its end. *)
Definition settle (env : Env) (p : Paused) (edits : Store -> Store) : World :=
  match p with
  | Finished w => w
  | Awaiting w c k =>
      let r := gateway env c in
      exec env (k r)
        (record (Settled c (settled_ok r))
           (mkWorld (edits (store w)) (ticks w) (log w) (timers w)))
  end.


Definition is_issue (e : Event) : bool :=
  match e with Issued _ => true | _ => false end.





(** Every character is whitespace (in particular, the empty string). *)
Fixpoint blank (s : string) : bool :=
  match s with
  | String c r => JS.is_space c && blank r
  | EmptyString => true
  end.

Fixpoint all_word (s : string) : bool :=
  match s with
  | String c r => JS.is_word c && all_word r
  | EmptyString => true
  end.

(** The store as a keyed collection: no two tasks share an id. *)
Definition unique_task_ids (ts : list Task.t) : Prop :=
  NoDup (List.map Task.id ts).

Definition starts_with_word (s : string) : bool :=
  match s with String c _ => JS.is_word c | EmptyString => false end.

(** Reconciliation as the handlers do it: every element whose id is [key]
    becomes [by_]. *)
Definition replace_by_id {A} (id : A -> string) (key : string) (by_ : A)
    (l : list A) : list A :=
  List.map (fun x => if String.eqb (id x) key then by_ else x) l.




Definition same_tasks_and_activity (w w' : World) : Prop :=
  tasks (store w') = tasks (store w) /\ activity (store w') = activity (store w).

(** From [w] to [w'] one entry was put at the front of the activity feed. *)
Definition logs_one (w w' : World) (action detail : string) : Prop :=
  exists item,
    activity (store w') = item :: activity (store w)
    /\ ActivityItem.action item = action
    /\ ActivityItem.detail item = detail
    /\ ActivityItem.timestamp item = "Just now".

Definition logs_none (w w' : World) : Prop :=
  activity (store w') = activity (store w).

(** What a handler that looks its entity up in its snapshot logs. *)
Definition logs_if_found {A} (found : option A) (w w' : World)
    (action : string) (detail : A -> string) : Prop :=
  match found with
  | Some x => logs_one w w' action (detail x)
  | None => logs_none w w'
  end.

(** ** Sample data *)

(** A remote store that resolves every call and answers a create with the
    one row [row]; and one that rejects every call. *)
Definition resolve_all (row : Row) : forall c : RemoteCall, option (Resp c) :=
  fun c =>
    match c as c0 return option (Resp c0) with
    | createTask _ _ _ _ _ => Some [row]
    | createGoal _ _ _ _ _ => Some [row]
    | createProject _ _ _ _ => Some [row]
    | createFeatureRequest _ _ _ _ _ => Some [row]
    | spawnAgent _ _ _ => Some None
    | _ => Some tt
    end.

Definition reject_all : forall c : RemoteCall, option (Resp c) := fun _ => None.

Definition fixedISO (ms : N) : string := "2026-02-15T10:00:00.000Z".

Definition row42 : Row :=
  mkRow "42" "2026-02-15T10:00:01.000Z" "2026-02-15T10:00:01.000Z".

(** The clock stands at 1000 ms and the remote store answers with [row42]. *)
Definition env42 : Env := mkEnv (fun _ => 1000%N) (resolve_all row42).

Definition draft : TaskData := mkTaskData "Draft" "Draft" high "tiger" None None.

Definition titlePatch (s : string) : Task.patch :=
  Task.mk_patch None (Some s) None None None None None None None None None
                None None None.

(** The operator retitles the task just created while its create call is
    still in flight: the synchronous part of [handleUpdateTask]. *)
Definition retitle (s : Store) : Store :=
  paused_store
    (start (clock env42)
       (handleUpdateTask true (tasks s) "temp-1000" (titlePatch "Draft v2"))
       (freshWorld s)).

(** [handleCreateTask] on [draft], live, from an empty store, stopped at
    its [await]. *)
Definition draftPaused : Paused :=
  start (clock env42) (handleCreateTask fixedISO true [] draft)
    (freshWorld emptyStore).


Definition taskA : Task.t :=
  Task.mk "t1" "Write copy" "Write copy" "tiger" "cea" medium pending None
    "2026-02-01T09:00:00.000Z" [] (Some "p1") (Some "Q1 Growth Push")
    (Some "GRW") None.

Definition goalA : Goal.t :=
  Goal.mk "g1" "Grow community" None 40%Z on_track None "Unassigned"
    (JS.Str "🎯") None [].

(** A goal record as the remote store may hold it, progress above 100. *)
Definition remoteGoal : RawGoal :=
  mkRawGoal "g9" "Ship v2" None (Some 150%Z) None None None None None.

Definition ideaA : FeatureRequest.t :=
  FeatureRequest.mk "f1" "Dark mode" None None None "new" "medium"
    "2026-02-01T09:00:00.000Z" "2026-02-01T09:00:00.000Z".

Definition sampleStore : Store := mkStore [] [taskA] [] [goalA] [ideaA] [].

(** ** More of the mapper layer *)

Record RawActivity := mkRawActivity {
  rac_id : string; rac_agent_handle : option string; rac_action : string;
  rac_detail : option string; rac_created_at : string;
  rac_action_type : ActivityType }.

Definition activityEmojiMap : list (string * string) :=
  [("@CEA", "🧠"); ("@Chief_of_Staff", "📋"); ("@Editor_in_Chief", "✍️");
   ("@Growth_Lead", "📈"); ("@VP_of_Engineering", "⚙️"); ("@Tiger", "🐯")].

(** [mins < 1 ? 'Just now' : mins < 60 ? `${mins}m ago`
     : `${Math.floor(mins / 60)}h ago`] with
    [mins = Math.floor(timeDiff / 60000)]; [None] is the [NaN] an
    unreadable date gives, for which both comparisons are false. *)
Definition timeStr (timeDiff : option Z) : string :=
  match timeDiff with
  | Some d =>
      let mins := (d / 60000)%Z in
      if (mins <? 1)%Z then "Just now"
      else if (mins <? 60)%Z then JS.of_Z mins ++ "m ago"
      else JS.of_Z (mins / 60)%Z ++ "h ago"
  | None => "NaNh ago"
  end.

(** [getTime] is [s => new Date(s).getTime()] and [now] is [Date.now()]. *)
Definition mapActivity (getTime : string -> option Z) (now : Z)
    (a : RawActivity) : ActivityItem.t :=
  ActivityItem.mk (rac_id a)
    (JS.or_else (rac_agent_handle a) "System")
    (JS.get_or (match rac_agent_handle a with
                | Some h => JS.get h activityEmojiMap
                | None => JS.Missing
                end) "🤖")
    (rac_action a)
    (JS.or_else (rac_detail a) "")
    (timeStr (option_map (fun created => (now - created)%Z)
                (getTime (rac_created_at a))))
    (rac_action_type a).

(** ** More of the components *)

(** TaskBoard.tsx: the filters, the columns, and the inline edits. *)
Module Board.

Inductive FilterType := filter_all | filter_tiger | filter_agents.

(** [projectFilter] is 'all', 'none' or a project id. *)
Definition filtered (tasks : list Task.t) (filter : FilterType)
    (projectFilter : string) : list Task.t :=
  List.filter (fun t =>
    if (match filter with
        | filter_tiger => negb (String.eqb (Task.assignedTo t) "tiger")
        | _ => false
        end) then false
    else if (match filter with
             | filter_agents => String.eqb (Task.assignedTo t) "tiger"
             | _ => false
             end) then false
    else if negb (String.eqb projectFilter "all") then
      if String.eqb projectFilter "none" then negb (given (Task.projectId t))
      else JS.opt_eqb (Task.projectId t) (Some projectFilter)
    else true) tasks.

Definition getSubTaskCount (tasks : list Task.t) (taskId : string) : nat :=
  List.length
    (List.filter (fun t => JS.opt_eqb (Task.parentTaskId t) (Some taskId)) tasks).

Definition getParentTask (tasks : list Task.t) (task : Task.t) : option Task.t :=
  if given (Task.parentTaskId task)
  then List.find (fun t => JS.opt_eqb (Some (Task.id t)) (Task.parentTaskId task))
                 tasks
  else None.

(** The keys of [columns]. *)
Definition columns : list TaskStatus := [pending; in_progress; review; completed].

(** [filtered.filter(t => t.status === col.key)] *)
Definition colTasks (shown : list Task.t) (col : TaskStatus) : list Task.t :=
  List.filter (fun t => TaskStatus_eqb (Task.status t) col) shown.

Definition saveEdit (onUpdateTask : option (string -> Task.patch -> Prog))
    (taskId field editValue : string) : Prog :=
  match onUpdateTask with
  | None => Done
  | Some update =>
      update taskId
        (Task.mk_patch None
           (if String.eqb field "title" then Some editValue else None)
           (if String.eqb field "description" then Some editValue else None)
           None None None None None None None None None None None)
  end.

Definition handlePriorityChange (onUpdateTask : option (string -> Task.patch -> Prog))
    (taskId : string) (priority : Priority) : Prog :=
  match onUpdateTask with
  | None => Done
  | Some update =>
      update taskId
        (Task.mk_patch None None None None None (Some priority) None None None
           None None None None None)
  end.

Definition handleAssigneeChange (onUpdateTask : option (string -> Task.patch -> Prog))
    (taskId assignedTo : string) : Prog :=
  match onUpdateTask with
  | None => Done
  | Some update =>
      update taskId
        (Task.mk_patch None None None (Some assignedTo) None None None None None
           None None None None None)
  end.

Definition handleProjectChange (projects : list Project.t)
    (onUpdateTask : option (string -> Task.patch -> Prog))
    (taskId projectId : string) : Prog :=
  match onUpdateTask with
  | None => Done
  | Some update =>
      let project :=
        List.find (fun p => String.eqb (Project.id p) projectId) projects in
      update taskId
        (Task.mk_patch None None None None None None None None None None
           (Some (JS.or_undefined (Some projectId)))
           (Some (option_map (fun p => JS.strip_PR (Project.title p)) project))
           (Some (JS.or_undefined (option_map Project.shortCode project)))
           None)
  end.


Definition handleDeleteTask (onDeleteTask : option (string -> Prog))
    (taskId : string) : Prog :=
  match onDeleteTask with
  | None => Done
  | Some delete => delete taskId
  end.

End Board.

(** Strategy.tsx: the goal form and the inline edits other than progress. *)
Module GoalForms.

Definition handleCreateGoal (onCreateGoal : option (GoalData -> Prog))
    (newTitle newDesc newOwner newDate : string) : Prog :=
  if negb (JS.truthy (JS.trim newTitle)) then Done
  else match onCreateGoal with
       | None => Done
       | Some create =>
           create (mkGoalData (JS.trim newTitle)
                     (JS.or_undefined (Some (JS.trim newDesc)))
                     (JS.or_undefined (Some newOwner))
                     (JS.or_undefined (Some newDate)))
       end.

Definition saveTitleEdit (onUpdateGoal : option (string -> Goal.patch -> Prog))
    (goalId titleValue : string) : Prog :=
  match onUpdateGoal with
  | Some update =>
      if JS.truthy (JS.trim titleValue)
      then update goalId
             (Goal.mk_patch None (Some (JS.trim titleValue)) None None None None
                None None None None)
      else Done
  | None => Done
  end.

Definition saveDescEdit (onUpdateGoal : option (string -> Goal.patch -> Prog))
    (goalId descValue : string) : Prog :=
  match onUpdateGoal with
  | Some update =>
      update goalId
        (Goal.mk_patch None None (Some (Some (JS.trim descValue))) None None None
           None None None None)
  | None => Done
  end.

Definition saveDateEdit (onUpdateGoal : option (string -> Goal.patch -> Prog))
    (goalId dateValue : string) : Prog :=
  match onUpdateGoal with
  | Some update =>
      update goalId
        (Goal.mk_patch None None None None None None None None
           (Some (JS.or_undefined (Some dateValue))) None)
  | None => Done
  end.

End GoalForms.

(** TaskCaptureModal.tsx, the idea form. *)
Module IdeaCaptureModal.

Definition handleSubmit (onSubmit : FeatureRequestData -> Prog)
    (title description : string) (pastedImage : option string)
    (currentView priority : string) : Prog :=
  if negb (JS.truthy (JS.trim title)) then Done
  else onSubmit
    (mkFeatureRequestData (JS.trim title)
       (JS.or_undefined (Some (JS.trim description)))
       (JS.or_undefined pastedImage)
       (Some currentView) (Some priority)).

End IdeaCaptureModal.

(** AgentDetail.tsx: the inline edits and the activation switch. *)
Module AgentDetail.

(** [s.split(sep)] for a one-character separator. *)
Fixpoint split (sep : ascii) (s : string) : list string :=
  match s with
  | EmptyString => [EmptyString]
  | String c r =>
      if Ascii.eqb c sep then EmptyString :: split sep r
      else match split sep r with
           | h :: t => String c h :: t
           | [] => [String c EmptyString]
           end
  end.

(** [editValue.split('\n').map(s => s.trim()).filter(Boolean)] *)
Definition toolList (editValue : string) : list string :=
  List.filter JS.truthy
    (List.map JS.trim (split (ascii_of_nat 10) editValue)).

Definition saveEdit (agent : Agent.t)
    (onUpdateAgent : string -> AgentUpdates -> Prog)
    (field editValue : string) : Prog :=
  onUpdateAgent (Agent.id agent)
    (mkAgentUpdates
       (if String.eqb field "system_prompt" then Some editValue else None)
       (if String.eqb field "functional_name" then Some editValue else None)
       (if String.eqb field "tool_access" then Some (toolList editValue) else None)
       None).


End AgentDetail.

(** ** Notions used to state what the handlers do and do not do *)

(** No event of the list is the issue of a remote call. *)
Definition no_calls (l : list Event) : bool := negb (List.existsb is_issue l).

(** A clock and a remote store that rejects every call. *)
Definition unreachable (clk : nat -> N) : Env := mkEnv clk reject_all.

(** The only change from [a] to [b] is the status. *)
Definition same_but_status (a b : Task.t) : Prop :=
  Task.with_status a (Task.status b) = b.



Definition ends_with_space (s : string) : bool :=
  match JS.rev s with String c _ => JS.is_space c | EmptyString => false end.

Definition starts_with_space (s : string) : bool :=
  match s with String c _ => JS.is_space c | EmptyString => false end.

(** Run from any world, the program adds no call to the log. *)
Definition silent (env : Env) (p : Prog) : Prop :=
  forall w, exists post,
    log (exec env p w) = log w ++ post /\ no_calls post = true.

(** With the remote store unreachable, [p] and [q] leave the same store and
    the same pending timers. *)
Definition same_outcome (clk : nat -> N) (p q : Prog) : Prop :=
  forall w,
    store (exec (unreachable clk) p w) = store (exec (unreachable clk) q w)
    /\ timers (exec (unreachable clk) p w) = timers (exec (unreachable clk) q w).

(** [{ ...t, projectId, projectName, projectShortCode }] *)
Definition with_project (t : Task.t) (pid name code : option string) : Task.t :=
  Task.mk (Task.id t) (Task.title t) (Task.description t) (Task.assignedTo t)
    (Task.assignedBy t) (Task.priority t) (Task.status t) (Task.deadline t)
    (Task.createdAt t) (Task.tags t) pid name code (Task.parentTaskId t).

(** What a task contributes to [pendingTaskCount]. *)
Definition pendingBit (t : Task.t) : nat :=
  if String.eqb (Task.assignedTo t) "tiger"
     && negb (TaskStatus_eqb (Task.status t) completed) then 1 else 0.

(** A sub-task of [taskA], and a project. *)
Definition taskB : Task.t :=
  Task.mk "t2" "Proofread copy" "Proofread copy" "cea" "tiger" low in_progress
    None "2026-02-02T09:00:00.000Z" [] None None None (Some "t1").

Definition projectA : Project.t :=
  Project.mk "p1" "PR.GRW | Q1 Growth Push" "GRW" None proj_active "Growth"
    None None None 1 0 None "2026-01-05T09:00:00.000Z" None.

Definition boardStore : Store := mkStore [] [taskA; taskB] [projectA] [] [] [].

Definition loggedActivity : RawActivity :=
  mkRawActivity "a1" (Some "@CEA") "Reviewed" None "2026-02-15T09:55:00.000Z"
    act_report.

(** From [s] to [s'] no collection other than those of [cells] changed. *)
Definition differs_only_in (cells : list Cell) (s s' : Store) : Prop :=
  (In Agents cells \/ agents s' = agents s)
  /\ (In Tasks cells \/ tasks s' = tasks s)
  /\ (In Projects cells \/ projects s' = projects s)
  /\ (In Goals cells \/ goals s' = goals s)
  /\ (In FeatureRequests cells \/ featureRequests s' = featureRequests s)
  /\ (In Activity cells \/ activity s' = activity s).

(** Remote records used to instantiate the mapper and spawn properties. *)
Definition rawTaskA : RawTask :=
  mkRawTask "r1" (Some "Ship the landing page") (Some "tiger") (Some 5%Z)
    (Some "failed") None "2026-02-01T09:00:00.000Z" (Some "p1") None.
Definition rawTaskBare : RawTask :=
  mkRawTask "r2" None None None None None "2026-02-01T09:00:00.000Z" None None.
Definition rawProjectA : RawProject :=
  mkRawProject "p1" (Some "PR.GRW | Q1 Growth Push") None None None None None
    None "2026-01-01T00:00:00.000Z" None.
(** A record whose status names a member of [Object.prototype], and a
    project that has no title. *)
Definition rawTaskOdd : RawTask :=
  mkRawTask "r3" (Some "Review the roadmap") None (Some 2%Z)
    (Some "constructor") None "2026-02-01T09:00:00.000Z" None None.
Definition rawProjectBare : RawProject :=
  mkRawProject "p1" None None None None None None None
    "2026-01-01T00:00:00.000Z" None.

(** * Properties *)

Unset Implicit Arguments.

(** ** Running programs *)

Lemma exec_seq env p q : forall w, exec env (p ;; q) w = exec env q (exec env p w).
Proof.
  induction p as [|k IH|f k IH|f k IH|f k IH|f k IH|f k IH|f k IH|cb _ ms k IH|c k IH];
    intros w; simpl; auto.
Qed.


Lemma drop_while_blank s : blank s = true -> JS.drop_while JS.is_space s = "".
Proof.
  induction s as [|c r IH]; simpl; auto.
  intros H. apply andb_true_iff in H. destruct H as [Hc Hr].
  rewrite Hc. auto.
Qed.

Lemma blank_trim s : blank s = true -> JS.trim s = "".
Proof.
  intros H. unfold JS.trim. rewrite (drop_while_blank s H). reflexivity.
Qed.

Lemma find_unique (ts : list Task.t) t :
  unique_task_ids ts -> In t ts ->
  List.find (fun x => String.eqb (Task.id x) (Task.id t)) ts = Some t.
Proof.
  unfold unique_task_ids.
  induction ts as [|a r IH]; simpl; intros Hnd Hin; [contradiction|].
  inversion Hnd as [|? ? Hnotin Hnd']; subst.
  destruct Hin as [->|Hin].
  - rewrite String.eqb_refl. reflexivity.
  - destruct (String.eqb_spec (Task.id a) (Task.id t)) as [E|_].
    + exfalso. apply Hnotin. rewrite E. apply in_map. exact Hin.
    + auto.
Qed.

(** The tokens of the closed unions name no member of [Object.prototype]:
    on the tables that the write handlers index by a status or a priority,
    a read finds an own property, as [JS.lookup] has it. *)
Lemma closed_keys_are_own :
  (forall st, exists v,
      JS.lookup (status_token st) statusMap = Some v
      /\ JS.get (status_token st) statusMap = JS.Own v)
  /\ (forall p, exists n,
        JS.lookup (priority_token p) priorityMap = Some n
        /\ JS.get (priority_token p) priorityMap = JS.Own n).
Proof.
  split; intros []; eexists; split; reflexivity.
Qed.

Lemma TaskStatus_eqb_refl s : TaskStatus_eqb s s = true.
Proof. unfold TaskStatus_eqb. apply String.eqb_refl. Qed.

Lemma TaskStatus_eqb_eq a b : TaskStatus_eqb a b = true <-> a = b.
Proof. destruct a, b; unfold TaskStatus_eqb; simpl; split; intros H; congruence. Qed.



Lemma drop_same (cb : string -> TaskStatus -> Prog) ts t :
  List.find (fun x => String.eqb (Task.id x) (Task.id t)) ts = Some t ->
  TaskBoard.handleDrop ts cb (Task.id t) (Task.status t) = Done.
Proof.
  intros H. unfold TaskBoard.handleDrop. rewrite H, TaskStatus_eqb_refl. simpl.
  destruct (JS.truthy (Task.id t)); reflexivity.
Qed.

Lemma drop_mutates_only_on_change :
  forall ts cb taskId target,
    TaskBoard.handleDrop ts cb taskId target = Done
    \/ exists task, List.find (fun x => String.eqb (Task.id x) taskId) ts = Some task
         /\ Task.status task <> target
         /\ TaskBoard.handleDrop ts cb taskId target = cb taskId target.
Proof.
  intros. unfold TaskBoard.handleDrop.
  destruct (JS.truthy taskId); auto.
  destruct (List.find _ ts) as [task|]; auto.
  destruct (TaskStatus_eqb (Task.status task) target) eqn:E; simpl; auto.
  right. exists task. repeat split; auto.
  intros Heq. apply TaskStatus_eqb_eq in Heq. congruence.
Qed.

(** C9. In a task collection keyed by id, dropping a task onto the column
    of its own status does nothing: the drop handler performs no effect at
    all (no status mutation is issued, the store and the activity feed are
    as before).  A drop reaches the status mutation only when the task
    found under the dragged id has a status other than the column's. *)
Theorem drop_on_own_column_is_noop :
  forall (ts : list Task.t) (t : Task.t) isLive snapshot env w,
    unique_task_ids ts -> In t ts ->
    let onUpdateTaskStatus := handleUpdateTaskStatus isLive snapshot in
    TaskBoard.handleDrop ts onUpdateTaskStatus (Task.id t) (Task.status t) = Done
    /\ exec env (TaskBoard.handleDrop ts onUpdateTaskStatus
                   (Task.id t) (Task.status t)) w = w
    /\ (forall taskId target,
          TaskBoard.handleDrop ts onUpdateTaskStatus taskId target = Done
          \/ exists task,
               List.find (fun x => String.eqb (Task.id x) taskId) ts = Some task
               /\ Task.status task <> target
               /\ TaskBoard.handleDrop ts onUpdateTaskStatus taskId target
                  = onUpdateTaskStatus taskId target).
Proof.
  intros ts t isLive snapshot env w Hu Hin cb.
  rewrite (drop_same cb ts t (find_unique ts t Hu Hin)).
  repeat split. intros. apply drop_mutates_only_on_change.
Qed.

(** ** Short codes *)

Lemma after_prefix_app pre s : JS.after_prefix pre (pre ++ s)%string = Some s.
Proof.
  induction pre as [|a p IH]; simpl; auto. rewrite Ascii.eqb_refl. exact IH.
Qed.

Lemma after_prefix_inv pre :
  forall s r, JS.after_prefix pre s = Some r -> s = (pre ++ r)%string.
Proof.
  induction pre as [|a p IH]; simpl; intros s r H.
  - congruence.
  - destruct s as [|b s']; [discriminate|].
    destruct (Ascii.eqb_spec a b) as [->|_]; [|discriminate].
    f_equal. apply IH. exact H.
Qed.

Lemma take_while_word code rest :
  all_word code = true -> starts_with_word rest = false ->
  JS.take_while JS.is_word (code ++ rest)%string = code.
Proof.
  intros Hc Hr. induction code as [|c r IH]; simpl in *.
  - destruct rest as [|c r]; simpl in *; auto. rewrite Hr. reflexivity.
  - apply andb_true_iff in Hc. destruct Hc as [H1 H2]. rewrite H1. f_equal. auto.
Qed.

Lemma match_PR_matches code rest :
  code <> "" -> all_word code = true -> starts_with_word rest = false ->
  JS.match_PR ("PR." ++ code ++ rest)%string = Some code.
Proof.
  intros Hne Hc Hr. unfold JS.match_PR.
  rewrite after_prefix_app, (take_while_word code rest Hc Hr).
  destruct code; congruence.
Qed.

Lemma match_PR_none title :
  (forall rest, title = ("PR." ++ rest)%string -> starts_with_word rest = false) ->
  JS.match_PR title = None.
Proof.
  intros H. unfold JS.match_PR.
  destruct (JS.after_prefix "PR." title) as [rest|] eqn:E; auto.
  apply after_prefix_inv in E. specialize (H rest E).
  destruct rest as [|c r]; simpl in *; auto. rewrite H. reflexivity.
Qed.

Lemma or_else_empty s : JS.or_else (Some s) "" = s.
Proof. destruct s; reflexivity. Qed.

Lemma createProject_inserts (iso : N -> string) clk isLive ds ps data w :
  exists e,
    projects (paused_store (start clk (handleCreateProject iso isLive ds ps data) w))
    = e :: projects (store w)
    /\ Project.id e = tempId (clk (ticks w))
    /\ Project.shortCode e = createProject_shortCode (pd_title data).
Proof.
  unfold handleCreateProject.
  destruct isLive; simpl; eexists; split; try reflexivity; split; reflexivity.
Qed.

(** C8, as amended.  When the title is "PR." followed by a non-empty run
    of word characters [code] (and the run ends there), both derivations of
    the short code give [code].  When the title does not start with "PR."
    and a word character, [handleCreateProject] stores the first four
    characters upper-cased while [mapProject] gives the first four
    characters as they are: "Untitled Initiative" is "UNTI" when created
    locally and "Unti" when mapped from a remote record. *)
Theorem shortCode_derivation :
  (forall code rest,
      code <> "" -> all_word code = true -> starts_with_word rest = false ->
      createProject_shortCode ("PR." ++ code ++ rest)%string = code
      /\ mapProject_shortCode (Some ("PR." ++ code ++ rest)%string) = code)
  /\ (forall title,
      (forall rest, title = ("PR." ++ rest)%string -> starts_with_word rest = false) ->
      createProject_shortCode title = JS.toUpperCase (JS.substring 0 4 title)
      /\ mapProject_shortCode (Some title) = JS.substring 0 4 title)
  /\ createProject_shortCode "Untitled Initiative" = "UNTI"
  /\ mapProject_shortCode (Some "Untitled Initiative") = "Unti"
  /\ (forall p departments rawTasks,
        Project.shortCode (mapProject p departments rawTasks)
        = mapProject_shortCode (rp_title p))
  /\ (forall (iso : N -> string) clk isLive departments snapshot data w,
        exists e,
          projects (paused_store
                      (start clk (handleCreateProject iso isLive departments
                                    snapshot data) w))
          = e :: projects (store w)
          /\ Project.shortCode e = createProject_shortCode (pd_title data)).
Proof.
  split; [|split; [|split; [|split; [|split]]]]; try reflexivity.
  - intros code rest Hne Hc Hr.
    unfold createProject_shortCode, mapProject_shortCode.
    rewrite (match_PR_matches code rest Hne Hc Hr).
    destruct code; [congruence|]. simpl. auto.
  - intros title H.
    unfold createProject_shortCode, mapProject_shortCode.
    rewrite (match_PR_none title H). simpl. split; [reflexivity|].
    apply or_else_empty.
  - intros iso clk isLive ds ps data w.
    destruct (createProject_inserts iso clk isLive ds ps data w) as (e & H1 & _ & H3).
    exists e. auto.
Qed.

(** ** Blank titles *)

(** C4. A task-create request with an empty or whitespace-only title is
    refused by each of the three forms that can send it (the board's
    create form, the quick-capture modal, the project page): the create
    handler is not called, and the Task and Activity collections are as
    before. *)
Theorem blank_title_create_is_noop :
  forall title, blank title = true ->
  forall (iso : N -> string) isLive projects env w,
    let onCreateTask := handleCreateTask iso isLive projects in
    (forall form, TaskBoard.title form = title ->
       TaskBoard.handleCreateTask (Some onCreateTask) form = Done
       /\ same_tasks_and_activity w
            (exec env (TaskBoard.handleCreateTask (Some onCreateTask) form) w))
    /\ (forall priority assignedTo projectId,
       same_tasks_and_activity w
         (exec env (TaskCaptureModal.handleSubmit onCreateTask title priority
                      assignedTo projectId) w))
    /\ (forall project priority assignee,
       same_tasks_and_activity w
         (exec env (ProjectDetail.handleCreateTask project onCreateTask title
                      priority assignee) w)).
Proof.
  intros title Hb iso isLive projects env w cb.
  pose proof (blank_trim title Hb) as Ht.
  repeat split.
  all: try (destruct form as [ti d p a pid]; simpl in *; subst ti).
  all: unfold TaskBoard.handleCreateTask, TaskCaptureModal.handleSubmit,
         ProjectDetail.handleCreateTask; simpl; rewrite Ht; reflexivity.
Qed.

(** The guard lives in the forms: the handler of [App.tsx], called directly,
    inserts whatever title it is given. *)
Lemma handleCreateTask_unguarded (iso : N -> string) env projects w :
  exists e,
    tasks (store (exec env (handleCreateTask iso false projects
                              (mkTaskData "" "" medium "tiger" None None)) w))
    = e :: tasks (store w)
    /\ Task.title e = "".
Proof.
  unfold handleCreateTask. simpl. eexists; split; reflexivity.
Qed.

(** ** Temporary identifiers *)

Lemma createTask_inserts (iso : N -> string) clk isLive projects data w :
  exists e,
    tasks (paused_store (start clk (handleCreateTask iso isLive projects data) w))
    = e :: tasks (store w)
    /\ Task.id e = tempId (clk (ticks w)).
Proof.
  unfold handleCreateTask. destruct isLive; simpl; eexists; split; reflexivity.
Qed.

Lemma createGoal_inserts clk isLive agents data w :
  exists e,
    goals (paused_store (start clk (handleCreateGoal isLive agents data) w))
    = goals (store w) ++ [e]
    /\ Goal.id e = tempId (clk (ticks w)).
Proof.
  unfold handleCreateGoal. destruct isLive; simpl; eexists; split; reflexivity.
Qed.

Lemma createFeatureRequest_inserts (iso : N -> string) clk isLive data w :
  exists e,
    featureRequests
      (paused_store (start clk (handleCreateFeatureRequest iso isLive data) w))
    = e :: featureRequests (store w)
    /\ FeatureRequest.id e = tempId (clk (ticks w)).
Proof.
  unfold handleCreateFeatureRequest.
  destruct isLive; simpl; eexists; split; reflexivity.
Qed.

Lemma two_creates_collide (iso : N -> string) env now projects d1 d2 w :
  (forall n, clock env n = now) ->
  exists t1 t2,
    tasks (store (exec env (handleCreateTask iso false projects d2)
                    (exec env (handleCreateTask iso false projects d1) w)))
    = t2 :: t1 :: tasks (store w)
    /\ Task.id t1 = tempId now /\ Task.id t2 = tempId now.
Proof.
  intros Hc. unfold handleCreateTask. simpl. rewrite !Hc.
  eexists. eexists. split; [reflexivity|]. split; reflexivity.
Qed.

(** C10. The temporary id of a locally created task, goal, project or
    feature request is "temp-" followed by the clock value (in
    milliseconds) read when the entity is built; it depends on nothing
    else, so two creates that read the same clock value get the same id:
    two tasks created while the clock stands still are both stored, under
    one id. *)
Theorem temp_id_is_clock_value :
  forall (iso : N -> string) clk isLive w,
    (forall now, tempId now = ("temp-" ++ JS.of_N now)%string)
    /\ (forall projects data, exists e,
          tasks (paused_store
                   (start clk (handleCreateTask iso isLive projects data) w))
          = e :: tasks (store w)
          /\ Task.id e = tempId (clk (ticks w)))
    /\ (forall agents data, exists e,
          goals (paused_store (start clk (handleCreateGoal isLive agents data) w))
          = goals (store w) ++ [e]
          /\ Goal.id e = tempId (clk (ticks w)))
    /\ (forall departments snapshot data, exists e,
          projects (paused_store
                      (start clk (handleCreateProject iso isLive departments
                                    snapshot data) w))
          = e :: projects (store w)
          /\ Project.id e = tempId (clk (ticks w)))
    /\ (forall data, exists e,
          featureRequests
            (paused_store (start clk (handleCreateFeatureRequest iso isLive data) w))
          = e :: featureRequests (store w)
          /\ FeatureRequest.id e = tempId (clk (ticks w)))
    /\ (forall env now projects d1 d2,
          (forall n, clock env n = now) ->
          exists t1 t2,
            tasks (store (exec env (handleCreateTask iso false projects d2)
                            (exec env (handleCreateTask iso false projects d1) w)))
            = t2 :: t1 :: tasks (store w)
            /\ Task.id t1 = tempId now /\ Task.id t2 = tempId now).
Proof.
  intros iso clk isLive w.
  split; [reflexivity|].
  split; [intros; apply createTask_inserts|].
  split; [intros; apply createGoal_inserts|].
  split.
  { intros ds ps data.
    destruct (createProject_inserts iso clk isLive ds ps data w) as (e & H1 & H2 & _).
    exists e. auto. }
  split; [intros; apply createFeatureRequest_inserts|].
  intros env now projects d1 d2 Hc. apply two_creates_collide. exact Hc.
Qed.

(** ** Deleting a project *)

Lemma opt_eqb_spec x y : reflect (x = y) (JS.opt_eqb x y).
Proof.
  destruct x as [a|], y as [b|]; simpl; try (constructor; congruence).
  destruct (String.eqb_spec a b); constructor; congruence.
Qed.



(** ** Reconciliation of a create *)

Ltac read_answer env H :=
  match goal with
  | |- context [gateway env ?c] => destruct (gateway env c) as [[|r rs]|]
  end;
  simpl in H; try discriminate;
  inversion H; subst; reflexivity.

Lemma createTask_reconciles (iso : N -> string) env projects data w edits row :
  let p := start (clock env) (handleCreateTask iso true projects data) w in
  answered env p = Some row ->
  exists tempTask,
    tasks (paused_store p) = tempTask :: tasks (store w)
    /\ tasks (store (settle env p edits))
       = replace_by_id Task.id (Task.id tempTask)
           (Task.with_id tempTask (row_id row)) (tasks (edits (paused_store p))).
Proof.
  unfold handleCreateTask; simpl. intros H.
  eexists. split; [reflexivity|]. read_answer env H.
Qed.







(** ** Order of effects *)




Lemma statusUpdate_commits env isLive snapshot i st w :
  tasks (store (exec env (handleUpdateTaskStatus isLive snapshot i st) w))
  = List.map (fun t => if String.eqb (Task.id t) i then Task.with_status t st else t)
      (tasks (store w)).
Proof.
  unfold handleUpdateTaskStatus.
  destruct isLive, (List.find _ snapshot); reflexivity.
Qed.


(** ** Goal progress *)

Lemma clampInput_range v : (0 <= Strategy.clampInput v <= 100)%Z.
Proof. unfold Strategy.clampInput. destruct (Strategy.parseInt v); lia. Qed.

Lemma updateGoal_store env isLive snapshot gid u w :
  goals (store (exec env (handleUpdateGoal isLive snapshot gid u) w))
  = List.map (fun g => if String.eqb (Goal.id g) gid then Goal.merge g u else g)
      (goals (store w)).
Proof.
  unfold handleUpdateGoal. destruct isLive, (List.find _ snapshot); reflexivity.
Qed.

Lemma updateGoal_progress env isLive snapshot gid v w i g :
  nth_error (goals (store w)) i = Some g -> Goal.id g = gid ->
  exists g',
    nth_error (goals (store (exec env (handleUpdateGoal isLive snapshot gid
                                         (Strategy.progressPatch v)) w))) i
    = Some g'
    /\ Goal.progress g' = v.
Proof.
  intros Hi Hid. rewrite updateGoal_store, nth_error_map, Hi. simpl.
  rewrite Hid, String.eqb_refl. eexists. split; reflexivity.
Qed.

(** C6, as amended.  What the operator types into the progress field of
    the Strategy view is clamped to [0,100] when it is typed ("150" gives
    100, "-5" gives 0, text that is not a number gives 0), and saving then
    stores that clamped value on the goal.  The update handler itself
    stores the progress it is given, without clamping. *)
Theorem progress_clamped_at_input :
  forall value ed,
    let ed' := Strategy.onChange ed value in
    (0 <= Strategy.progressValue ed' <= 100)%Z
    /\ (forall env isLive snapshot goalId w i g,
          nth_error (goals (store w)) i = Some g -> Goal.id g = goalId ->
          exists g',
            nth_error
              (goals (store (exec env
                 (Strategy.saveProgress (Some (handleUpdateGoal isLive snapshot))
                    ed' goalId) w))) i = Some g'
            /\ Goal.progress g' = Strategy.clampInput value
            /\ (0 <= Goal.progress g' <= 100)%Z)
    /\ Strategy.clampInput "150" = 100%Z
    /\ Strategy.clampInput "-5" = 0%Z
    /\ Strategy.clampInput "abc" = 0%Z
    /\ (forall env isLive snapshot goalId v w i g,
          nth_error (goals (store w)) i = Some g -> Goal.id g = goalId ->
          exists g',
            nth_error
              (goals (store (exec env
                 (handleUpdateGoal isLive snapshot goalId
                    (Strategy.progressPatch v)) w))) i = Some g'
            /\ Goal.progress g' = v).
Proof.
  intros value ed ed'. split; [apply clampInput_range|].
  split; [|repeat split; try reflexivity].
  - intros env isLive snapshot goalId w i g Hi Hid. simpl.
    destruct (updateGoal_progress env isLive snapshot goalId
                (Strategy.clampInput value) w i g Hi Hid) as (g' & H1 & H2).
    exists g'. split; [exact H1|]. split; [exact H2|].
    rewrite H2. apply clampInput_range.
  - intros env isLive snapshot goalId v w i g Hi Hid.
    exact (updateGoal_progress env isLive snapshot goalId v w i g Hi Hid).
Qed.

(** ** The activity feed *)

Ltac one := eexists; repeat split; reflexivity.








Lemma log_updateTask env w isLive ts i u :
  logs_if_found (List.find (fun t => String.eqb (Task.id t) i) ts) w
    (exec env (handleUpdateTask isLive ts i u) w)
    "Updated task"
    (fun task => (Task.title task ++ ": " ++ JS.join ", " (taskChanges u))%string).
Proof.
  unfold handleUpdateTask, logs_if_found.
  destruct isLive, (List.find _ ts); simpl; try reflexivity; one.
Qed.













(** ** Checks on concrete inputs *)

Example match_PR_ex : JS.match_PR "PR.GRW | Q1 Growth Push" = Some "GRW".
Proof. reflexivity. Qed.

Example strip_PR_ex : JS.strip_PR "PR.GRW | Q1 Growth Push" = "Q1 Growth Push".
Proof. reflexivity. Qed.

Example strip_PR_plain : JS.strip_PR "Untitled Initiative" = "Untitled Initiative".
Proof. reflexivity. Qed.

Example trim_ex : JS.trim "  a b  " = "a b".
Proof. reflexivity. Qed.

Example tempId_ex : tempId 1707955200000 = "temp-1707955200000".
Proof. reflexivity. Qed.

Example parseInt_ex :
  List.map Strategy.parseInt
    ["150"; "-5"; "12.7"; " 0x1F"; ""; "abc"; "1e3";
     "9007199254740992"; "9007199254740993"; "-9007199254740993"]
  = [Strategy.Int 150; Strategy.Int (-5); Strategy.Int 12; Strategy.Int 31;
     Strategy.NaN; Strategy.NaN; Strategy.Int 1;
     Strategy.Int 9007199254740992; Strategy.Above; Strategy.Below]%Z.
Proof. vm_compute. reflexivity. Qed.

Example taskChanges_ex :
  JS.join ", "
    (taskChanges (Task.mk_patch None (Some "New title") None None None (Some high)
                    None None None None None None None None))
  = "title, priority → high".
Proof. reflexivity. Qed.

(** The scenario of the specification: one pending task with a temporary
    id and one "Created task" entry. *)
Example create_draft_offline :
  let w := exec env42 (handleCreateTask fixedISO false []
                         (mkTaskData "Draft Q1 report" "Draft Q1 report" high
                            "tiger" None None))
             (freshWorld emptyStore) in
  List.map (fun t => (Task.id t, Task.status t, Task.assignedBy t)) (tasks (store w))
  = [("temp-1000", pending, "tiger")]
  /\ List.map (fun a => (ActivityItem.action a, ActivityItem.detail a))
       (activity (store w))
     = [("Created task", "Draft Q1 report")].
Proof. split; reflexivity. Qed.

(** A rejected create call: the optimistic task stands under its
    temporary id and the entry is logged all the same. *)
Example create_draft_rejected :
  let w := exec (mkEnv (fun _ => 1000%N) reject_all)
             (handleCreateTask fixedISO true [] draft) (freshWorld emptyStore) in
  List.map Task.id (tasks (store w)) = ["temp-1000"]
  /\ List.map ActivityItem.action (activity (store w)) = ["Created task"]
  /\ log w = [Commit Tasks;
              Issued (createTask "Draft" 2 None None None);
              Settled (createTask "Draft" 2 None None None) false;
              Commit Activity].
Proof. repeat split. Qed.

Example pendingTaskCount_ex :
  pendingTaskCount
    [taskA; Task.with_status taskA completed; Task.with_status taskA in_progress]
  = 2.
Proof. reflexivity. Qed.

(** ** Instances and counterexamples *)


(** A drop of [taskA] on its own column. *)
Lemma drop_on_own_column_is_noop_witness :
  unique_task_ids [taskA] /\ In taskA [taskA]
  /\ exec env42
       (TaskBoard.handleDrop [taskA] (handleUpdateTaskStatus true [taskA])
          (Task.id taskA) (Task.status taskA))
       (freshWorld sampleStore)
     = freshWorld sampleStore.
Proof.
  assert (Hu : unique_task_ids [taskA]).
  { unfold unique_task_ids. simpl. constructor; [intros []|constructor]. }
  assert (Hin : In taskA [taskA]) by (left; reflexivity).
  split; [exact Hu|]. split; [exact Hin|].
  exact (proj1 (proj2 (drop_on_own_column_is_noop [taskA] taskA true [taskA] env42
                         (freshWorld sampleStore) Hu Hin))).
Defined.

(** A title of three spaces, sent from the board's create form. *)
Lemma blank_title_create_is_noop_witness :
  blank "   " = true
  /\ same_tasks_and_activity (freshWorld sampleStore)
       (exec env42
          (TaskBoard.handleCreateTask (Some (handleCreateTask fixedISO true []))
             (TaskBoard.mkNewTask "   " "" medium "tiger" ""))
          (freshWorld sampleStore)).
Proof.
  split; [reflexivity|].
  exact (proj2 (proj1 (blank_title_create_is_noop "   " eq_refl fixedISO true []
                         env42 (freshWorld sampleStore))
                  (TaskBoard.mkNewTask "   " "" medium "tiger" "") eq_refl)).
Defined.

(** Two creates while the clock stands at 1000. *)
Lemma temp_id_is_clock_value_witness :
  (forall n, clock env42 n = 1000%N)
  /\ exists t1 t2,
       tasks (store (exec env42 (handleCreateTask fixedISO false [] draft)
                       (exec env42 (handleCreateTask fixedISO false [] draft)
                          (freshWorld emptyStore))))
       = [t2; t1]
       /\ Task.id t1 = "temp-1000" /\ Task.id t2 = "temp-1000".
Proof.
  split; [intros n; reflexivity|].
  exact (proj2 (proj2 (proj2 (proj2 (proj2
           (temp_id_is_clock_value fixedISO (clock env42) false
              (freshWorld emptyStore))))))
         env42 1000%N [] draft draft (fun n => eq_refl)).
Defined.


(** The short code of "PR.GRW | Q1 Growth Push". *)
Lemma shortCode_derivation_witness :
  all_word "GRW" = true /\ starts_with_word " | Q1 Growth Push" = false
  /\ createProject_shortCode "PR.GRW | Q1 Growth Push" = "GRW"
  /\ mapProject_shortCode (Some "PR.GRW | Q1 Growth Push") = "GRW".
Proof.
  split; [reflexivity|]. split; [reflexivity|].
  exact (proj1 shortCode_derivation "GRW" " | Q1 Growth Push"
           (fun H => match H with eq_refl => I end) eq_refl eq_refl).
Defined.

(** "150" typed into the progress field of [goalA] and saved. *)
Lemma progress_clamped_at_input_witness :
  nth_error (goals (store (freshWorld sampleStore))) 0 = Some goalA
  /\ exists g',
       nth_error
         (goals (store (exec env42
            (Strategy.saveProgress (Some (handleUpdateGoal true [goalA]))
               (Strategy.onChange (Strategy.startProgressEdit "g1" 40%Z) "150")
               "g1")
            (freshWorld sampleStore)))) 0 = Some g'
       /\ Goal.progress g' = 100%Z.
Proof.
  split; [reflexivity|].
  destruct (proj1 (proj2 (progress_clamped_at_input "150"
                            (Strategy.startProgressEdit "g1" 40%Z)))
              env42 true [goalA] "g1" (freshWorld sampleStore) 0 goalA
              eq_refl eq_refl) as (g' & Hn & Hp & _).
  exists g'. split; [exact Hn|exact Hp].
Defined.




(** C6 as stated fails: the update handler stores 150 and -5 as they are;
    and a goal loaded with progress 150, opened in the progress editor and
    saved without typing, is stored with 150 again. *)
Lemma handler_stores_progress_unclamped :
  List.map Goal.progress
    (goals (store (exec env42
       (handleUpdateGoal true [goalA] "g1" (Strategy.progressPatch 150))
       (freshWorld sampleStore))))
  = [150%Z]
  /\ List.map Goal.progress
       (goals (store (exec env42
          (handleUpdateGoal true [goalA] "g1" (Strategy.progressPatch (-5)))
          (freshWorld sampleStore))))
     = [(-5)%Z]
  /\ (let loaded := mapGoal remoteGoal [] in
      List.map Goal.progress
        (goals (store (exec env42
           (Strategy.saveProgress (Some (handleUpdateGoal true [loaded]))
              (Strategy.startProgressEdit (Goal.id loaded) (Goal.progress loaded))
              (Goal.id loaded))
           (freshWorld (mkStore [] [] [] [loaded] [] [])))))
      = [150%Z])
  /\ ~ (0 <= 150 <= 100)%Z /\ ~ (0 <= -5 <= 100)%Z.
Proof. repeat split; try reflexivity; lia. Qed.


(** C8 as stated fails: it asks both for the first four characters
    upper-cased and for "Unti"; the mapper does not upper-case, and the
    create handler does not give "Unti". *)
Lemma shortCode_claim_inconsistent :
  mapProject_shortCode (Some "Untitled Initiative")
  <> JS.toUpperCase (JS.substring 0 4 "Untitled Initiative")
  /\ createProject_shortCode "Untitled Initiative" <> "Unti".
Proof. split; vm_compute; discriminate. Qed.

(** * Further properties of the handlers, mappers and components *)

(** ** Offline and unreachable *)

Ltac silence :=
  unfold silent; intros w; simpl;
  repeat match goal with
  | |- context [List.find ?f ?l] => destruct (List.find f l)
  end; simpl;
  eexists; (split; [rewrite <- ?app_assoc; reflexivity | reflexivity]).

(** X1. Offline ([isLive] false) no handler issues a remote call: whatever
    the arguments and the store, the run adds no call to the log. *)
Theorem offline_handlers_issue_no_call :
  forall (iso : N -> string) env,
    (forall name emoji role description,
        silent env (handleSpawnAgent false name emoji role description))
    /\ (forall snapshot taskId status,
        silent env (handleUpdateTaskStatus false snapshot taskId status))
    /\ (forall snapshot taskId updates,
        silent env (handleUpdateTask false snapshot taskId updates))
    /\ (forall snapshot data, silent env (handleCreateTask iso false snapshot data))
    /\ (forall snapshot taskId, silent env (handleDeleteTask false snapshot taskId))
    /\ (forall snapshot projectId updates,
        silent env (handleUpdateProject false snapshot projectId updates))
    /\ (forall snapshot goalId updates,
        silent env (handleUpdateGoal false snapshot goalId updates))
    /\ (forall snapshot data, silent env (handleCreateGoal false snapshot data))
    /\ (forall snapshot goalId, silent env (handleDeleteGoal false snapshot goalId))
    /\ (forall departments snapshot data,
        silent env (handleCreateProject iso false departments snapshot data))
    /\ (forall snapshot projectId,
        silent env (handleDeleteProject false snapshot projectId))
    /\ (forall data, silent env (handleCreateFeatureRequest iso false data))
    /\ (forall id updates, silent env (handleUpdateFeatureRequest iso false id updates))
    /\ (forall id, silent env (handleDeleteFeatureRequest false id))
    /\ (forall agentId updates, silent env (handleUpdateAgent false agentId updates)).
Proof.
  intros iso env. repeat split.
  - intros; unfold handleSpawnAgent, handleSpawnAgent_local; silence.
  - intros; unfold handleUpdateTaskStatus; silence.
  - intros; unfold handleUpdateTask; silence.
  - intros; unfold handleCreateTask; silence.
  - intros; unfold handleDeleteTask; silence.
  - intros; unfold handleUpdateProject; silence.
  - intros; unfold handleUpdateGoal; silence.
  - intros; unfold handleCreateGoal; silence.
  - intros; unfold handleDeleteGoal; silence.
  - intros; unfold handleCreateProject; silence.
  - intros; unfold handleDeleteProject; silence.
  - intros; unfold handleCreateFeatureRequest; silence.
  - intros; unfold handleUpdateFeatureRequest; silence.
  - intros; unfold handleDeleteFeatureRequest; silence.
  - intros; unfold handleUpdateAgent; silence.
Qed.

Ltac same :=
  unfold same_outcome; intros w; simpl;
  repeat match goal with
  | |- context [List.find ?f ?l] => destruct (List.find f l)
  end; split; reflexivity.

(** X2. When every remote call is rejected, a live handler leaves the
    store (and the pending timers) exactly as the same handler run offline
    does: the optimistic state stands and nothing else is changed.  A spawn
    whose call is rejected falls back to the local spawn. *)
Theorem rejected_call_leaves_offline_state :
  forall (iso : N -> string) clk,
    (forall name emoji role description,
        same_outcome clk (handleSpawnAgent true name emoji role description)
          (handleSpawnAgent false name emoji role description))
    /\ (forall snapshot taskId status,
        same_outcome clk (handleUpdateTaskStatus true snapshot taskId status)
          (handleUpdateTaskStatus false snapshot taskId status))
    /\ (forall snapshot taskId updates,
        same_outcome clk (handleUpdateTask true snapshot taskId updates)
          (handleUpdateTask false snapshot taskId updates))
    /\ (forall snapshot data,
        same_outcome clk (handleCreateTask iso true snapshot data)
          (handleCreateTask iso false snapshot data))
    /\ (forall snapshot taskId,
        same_outcome clk (handleDeleteTask true snapshot taskId)
          (handleDeleteTask false snapshot taskId))
    /\ (forall snapshot projectId updates,
        same_outcome clk (handleUpdateProject true snapshot projectId updates)
          (handleUpdateProject false snapshot projectId updates))
    /\ (forall snapshot goalId updates,
        same_outcome clk (handleUpdateGoal true snapshot goalId updates)
          (handleUpdateGoal false snapshot goalId updates))
    /\ (forall snapshot data,
        same_outcome clk (handleCreateGoal true snapshot data)
          (handleCreateGoal false snapshot data))
    /\ (forall snapshot goalId,
        same_outcome clk (handleDeleteGoal true snapshot goalId)
          (handleDeleteGoal false snapshot goalId))
    /\ (forall departments snapshot data,
        same_outcome clk (handleCreateProject iso true departments snapshot data)
          (handleCreateProject iso false departments snapshot data))
    /\ (forall snapshot projectId,
        same_outcome clk (handleDeleteProject true snapshot projectId)
          (handleDeleteProject false snapshot projectId))
    /\ (forall data,
        same_outcome clk (handleCreateFeatureRequest iso true data)
          (handleCreateFeatureRequest iso false data))
    /\ (forall id updates,
        same_outcome clk (handleUpdateFeatureRequest iso true id updates)
          (handleUpdateFeatureRequest iso false id updates))
    /\ (forall id,
        same_outcome clk (handleDeleteFeatureRequest true id)
          (handleDeleteFeatureRequest false id))
    /\ (forall agentId updates,
        same_outcome clk (handleUpdateAgent true agentId updates)
          (handleUpdateAgent false agentId updates)).
Proof.
  intros iso clk.
  split; [intros; unfold handleSpawnAgent, handleSpawnAgent_local; same|].
  split; [intros; unfold handleUpdateTaskStatus; same|].
  split; [intros; unfold handleUpdateTask; same|].
  split; [intros; unfold handleCreateTask; same|].
  split; [intros; unfold handleDeleteTask; same|].
  split; [intros; unfold handleUpdateProject; same|].
  split; [intros; unfold handleUpdateGoal; same|].
  split; [intros; unfold handleCreateGoal; same|].
  split; [intros; unfold handleDeleteGoal; same|].
  split; [intros; unfold handleCreateProject; same|].
  split; [intros; unfold handleDeleteProject; same|].
  split; [intros; unfold handleCreateFeatureRequest; same|].
  split; [intros; unfold handleUpdateFeatureRequest; same|].
  split; [intros; unfold handleDeleteFeatureRequest; same|].
  intros; unfold handleUpdateAgent; same.
Qed.

(** ** Task status, edits and deletes *)

Lemma updateTask_store env isLive snapshot i u w :
  tasks (store (exec env (handleUpdateTask isLive snapshot i u) w))
  = List.map (fun t => if String.eqb (Task.id t) i then Task.merge t u else t)
      (tasks (store w)).
Proof. unfold handleUpdateTask. destruct isLive, (List.find _ snapshot); reflexivity. Qed.

Lemma deleteTask_store env isLive snapshot i w :
  tasks (store (exec env (handleDeleteTask isLive snapshot i) w))
  = List.filter (fun t => negb (String.eqb (Task.id t) i)) (tasks (store w)).
Proof. unfold handleDeleteTask. destruct isLive, (List.find _ snapshot); reflexivity. Qed.

Lemma map_absent {A} (id : A -> string) (f : A -> A) i l :
  ~ In i (List.map id l) ->
  List.map (fun x => if String.eqb (id x) i then f x else x) l = l.
Proof.
  intros H. rewrite <- (map_id l) at 2. apply map_ext_in. intros x Hx.
  destruct (String.eqb_spec (id x) i) as [E|_]; auto.
  exfalso. apply H. rewrite <- E. apply in_map. exact Hx.
Qed.

Lemma filter_absent {A} (id : A -> string) i l :
  ~ In i (List.map id l) ->
  List.filter (fun x => negb (String.eqb (id x) i)) l = l.
Proof.
  induction l as [|a r IH]; simpl; intros H; auto.
  destruct (String.eqb_spec (id a) i) as [E|_]; simpl.
  - exfalso. apply H. left. exact E.
  - f_equal. apply IH. intros Hin. apply H. right. exact Hin.
Qed.

Lemma filter_gone {A} (id : A -> string) i l :
  ~ In i (List.map id (List.filter (fun x => negb (String.eqb (id x) i)) l)).
Proof.
  intros H. apply in_map_iff in H. destruct H as (x & E & Hx).
  apply filter_In in Hx. destruct Hx as [_ Hx].
  rewrite E, String.eqb_refl in Hx. discriminate.
Qed.

(** X3. Two status updates of the same task compose as last write wins:
    the Task collection after both is the one the second alone gives.  A
    status update keeps every id in place and leaves each task with the
    given id in the new status. *)
Theorem status_updates_compose :
  forall env l1 l2 s1 s2 i st1 st2 w,
    tasks (store (exec env (handleUpdateTaskStatus l2 s2 i st2)
                    (exec env (handleUpdateTaskStatus l1 s1 i st1) w)))
    = tasks (store (exec env (handleUpdateTaskStatus l2 s2 i st2) w))
    /\ List.map Task.id (tasks (store (exec env (handleUpdateTaskStatus l1 s1 i st1) w)))
       = List.map Task.id (tasks (store w))
    /\ (forall t, In t (tasks (store (exec env (handleUpdateTaskStatus l1 s1 i st1) w))) ->
          Task.id t = i -> Task.status t = st1).
Proof.
  intros. rewrite !statusUpdate_commits. split; [|split].
  - rewrite map_map. apply map_ext. intros t.
    destruct (String.eqb_spec (Task.id t) i) as [E|NE]; simpl.
    + rewrite E, String.eqb_refl. reflexivity.
    + destruct (String.eqb_spec (Task.id t) i); [contradiction|reflexivity].
  - rewrite map_map. apply map_ext. intros t.
    destruct (String.eqb (Task.id t) i); reflexivity.
  - intros t Hin Hid. apply in_map_iff in Hin. destruct Hin as (x & E & _).
    destruct (String.eqb_spec (Task.id x) i) as [Ex|NE]; subst t; simpl in *; auto.
    contradiction.
Qed.

Lemma status_updates_compose_witness :
  let w' := exec env42 (handleUpdateTaskStatus false [] "t1" completed)
              (freshWorld sampleStore) in
  In (hd taskA (tasks (store w'))) (tasks (store w'))
  /\ Task.id (hd taskA (tasks (store w'))) = "t1"
  /\ Task.status (hd taskA (tasks (store w'))) = completed.
Proof.
  assert (Hin : In (hd taskA (tasks (store
                  (exec env42 (handleUpdateTaskStatus false [] "t1" completed)
                     (freshWorld sampleStore)))))
                (tasks (store
                  (exec env42 (handleUpdateTaskStatus false [] "t1" completed)
                     (freshWorld sampleStore)))))
    by (left; reflexivity).
  split; [exact Hin|]. split; [reflexivity|].
  exact (proj2 (proj2 (status_updates_compose env42 false false [] [] "t1"
                         completed completed (freshWorld sampleStore)))
           _ Hin eq_refl).
Defined.

(** X4. A status update, a full update or a delete aimed at an id that no
    task of the store carries leaves the Task collection as it is, live or
    offline. *)
Theorem absent_id_is_tolerated :
  forall env isLive snapshot i w,
    ~ In i (List.map Task.id (tasks (store w))) ->
    (forall st, tasks (store (exec env (handleUpdateTaskStatus isLive snapshot i st) w))
                = tasks (store w))
    /\ (forall u, tasks (store (exec env (handleUpdateTask isLive snapshot i u) w))
                  = tasks (store w))
    /\ tasks (store (exec env (handleDeleteTask isLive snapshot i) w)) = tasks (store w).
Proof.
  intros env isLive snapshot i w H. split; [|split]; intros.
  - rewrite statusUpdate_commits. apply map_absent. exact H.
  - rewrite updateTask_store. apply map_absent. exact H.
  - rewrite deleteTask_store. apply filter_absent. exact H.
Qed.

(** A status update aimed at "gone" in [boardStore]. *)
Lemma absent_id_is_tolerated_witness :
  ~ In "gone" (List.map Task.id (tasks (store (freshWorld boardStore))))
  /\ tasks (store (exec env42 (handleUpdateTaskStatus true [] "gone" review)
                     (freshWorld boardStore)))
     = tasks (store (freshWorld boardStore)).
Proof.
  assert (H : ~ In "gone" (List.map Task.id (tasks (store (freshWorld boardStore))))).
  { simpl. intros [H|[H|[]]]; discriminate H. }
  split; [exact H|].
  exact (proj1 (absent_id_is_tolerated env42 true [] "gone" (freshWorld boardStore) H)
           review).
Defined.

(** X5. After a task delete no task carries the deleted id, and the tasks
    left are exactly the others; a status update, a full update or a second
    delete of that id afterwards changes nothing in the Task collection. *)
Theorem delete_task_then_edit :
  forall env l1 l2 s1 s2 i w,
    let w1 := exec env (handleDeleteTask l1 s1 i) w in
    ~ In i (List.map Task.id (tasks (store w1)))
    /\ (forall t, In t (tasks (store w1)) <-> In t (tasks (store w)) /\ Task.id t <> i)
    /\ (forall st, tasks (store (exec env (handleUpdateTaskStatus l2 s2 i st) w1)) = tasks (store w1))
    /\ (forall u, tasks (store (exec env (handleUpdateTask l2 s2 i u) w1)) = tasks (store w1))
    /\ tasks (store (exec env (handleDeleteTask l2 s2 i) w1)) = tasks (store w1).
Proof.
  intros env l1 l2 s1 s2 i w w1.
  assert (Hgone : ~ In i (List.map Task.id (tasks (store w1)))).
  { unfold w1. rewrite deleteTask_store. apply filter_gone. }
  split; [exact Hgone|]. split.
  - intros t. unfold w1. rewrite deleteTask_store, filter_In.
    destruct (String.eqb_spec (Task.id t) i); simpl; split; intros [H1 H2]; split; auto; congruence.
  - destruct (absent_id_is_tolerated env l2 s2 i w1 Hgone) as (A & B & C). auto.
Qed.

(** X6. Deleting a task does not touch its sub-tasks: a sub-task stays in
    the collection, still naming the deleted task as its parent, so the
    board finds no parent for it while still counting it as a sub-task of
    the deleted id. *)
Theorem delete_parent_orphans_children :
  forall env isLive snapshot parent w child,
    In child (tasks (store w)) ->
    Task.parentTaskId child = Some parent ->
    Task.id child <> parent ->
    let ts' := tasks (store (exec env (handleDeleteTask isLive snapshot parent) w)) in
    In child ts'
    /\ Board.getParentTask ts' child = None
    /\ (0 < Board.getSubTaskCount ts' parent)%nat.
Proof.
  intros env isLive snapshot parent w child Hin Hp Hne ts'.
  unfold ts'. rewrite deleteTask_store.
  assert (Hc : In child (filter (fun t => negb (Task.id t =? parent)) (tasks (store w)))).
  { apply filter_In. split; auto. destruct (String.eqb_spec (Task.id child) parent); simpl; congruence. }
  split; [exact Hc|]. split.
  - unfold Board.getParentTask. rewrite Hp. destruct (given (Some parent)); auto.
    destruct (List.find _ _) as [t|] eqn:E; auto.
    apply find_some in E. destruct E as [Ht Heq].
    apply filter_In in Ht. destruct Ht as [_ Ht].
    simpl in Heq. rewrite Heq in Ht. discriminate.
  - unfold Board.getSubTaskCount.
    assert (Hcc : In child (filter (fun t => JS.opt_eqb (Task.parentTaskId t) (Some parent))
                   (filter (fun t => negb (Task.id t =? parent)) (tasks (store w))))).
    { apply filter_In. split; auto. rewrite Hp. simpl. apply String.eqb_refl. }
    destruct (filter _ (filter _ _)); [contradiction|simpl; lia].
Qed.

(** Deleting [taskA], the parent of [taskB]. *)
Lemma delete_parent_orphans_children_witness :
  In taskB (tasks (store (freshWorld boardStore)))
  /\ Task.parentTaskId taskB = Some "t1"
  /\ Board.getParentTask
       (tasks (store (exec env42 (handleDeleteTask true [taskA; taskB] "t1")
                        (freshWorld boardStore)))) taskB
     = None.
Proof.
  assert (Hin : In taskB (tasks (store (freshWorld boardStore))))
    by (right; left; reflexivity).
  split; [exact Hin|]. split; [reflexivity|].
  exact (proj1 (proj2 (delete_parent_orphans_children env42 true [taskA; taskB] "t1"
                         (freshWorld boardStore) taskB Hin eq_refl
                         (fun H => match H with eq_refl => I end)))).
Defined.

(** ** The mapper layer *)

Lemma substring_short n : forall s, (String.length (String.substring 0 n s) <= n)%nat.
Proof.
  induction n as [|n IH]; intros [|c r]; simpl; try lia.
  specialize (IH r). lia.
Qed.

(** What [mapTask] comes to, case by case. *)
Lemma get_inherited {V} (s m : string) (tbl : list (string * V)) :
  JS.get s tbl = JS.Inherited m <->
  m = s /\ JS.lookup s tbl = None /\ In s JS.proto_members.
Proof.
  unfold JS.get. destruct (JS.lookup s tbl) as [v|].
  - split; [discriminate|]. intros (_ & H & _). discriminate H.
  - destruct (List.existsb (String.eqb s) JS.proto_members) eqn:E.
    + apply existsb_exists in E. destruct E as (x & Hin & Hx).
      apply String.eqb_eq in Hx. subst x.
      split; [intros H; inversion H; subst; auto|intros (-> & _); reflexivity].
    + split; [discriminate|]. intros (_ & _ & Hin). exfalso.
      assert (List.existsb (String.eqb s) JS.proto_members = true).
      { apply existsb_exists. exists s. split; [exact Hin|apply String.eqb_refl]. }
      congruence.
Qed.

Lemma statusMap_no_member s :
  In s JS.proto_members -> JS.lookup s mapTask_statusMap = None.
Proof.
  intros H. simpl in H.
  repeat (destruct H as [<-|H]; [reflexivity|]). contradiction.
Qed.

Lemma statusMap_cases s st :
  JS.lookup s mapTask_statusMap = Some st ->
  (s = "todo" /\ st = pending) \/ (s = "in_progress" /\ st = in_progress)
  \/ (s = "done" /\ st = completed) \/ (s = "failed" /\ st = review).
Proof.
  unfold mapTask_statusMap; simpl.
  destruct (String.eqb_spec s "todo") as [E|_]; [intros H; inversion H; auto|].
  destruct (String.eqb_spec s "in_progress") as [E|_]; [intros H; inversion H; auto|].
  destruct (String.eqb_spec s "done") as [E|_]; [intros H; inversion H; auto|].
  destruct (String.eqb_spec s "failed") as [E|_]; [intros H; inversion H; auto 6|].
  discriminate.
Qed.

Lemma mapTask_status_inherited status m :
  mapTask_status status = JS.Inherited m <->
  status = Some m /\ In m JS.proto_members.
Proof.
  unfold mapTask_status. destruct status as [s|].
  - rewrite get_inherited. split.
    + intros (-> & _ & Hin). auto.
    + intros (E & Hin). inversion E; subst. auto using statusMap_no_member.
  - split; [discriminate|]. intros (E & _). discriminate E.
Qed.

Lemma mapTask_projectName_throws project :
  mapTask_projectName project = JS.Throws <->
  exists p, project = Some p /\ rp_title p = None.
Proof.
  unfold mapTask_projectName. destruct project as [p|].
  - destruct (rp_title p) as [ti|] eqn:E.
    + split; [discriminate|]. intros (q & Hq & Ht). inversion Hq; subst. congruence.
    + split; [eauto|reflexivity].
  - split; [discriminate|]. intros (q & Hq & _). discriminate Hq.
Qed.

(** The case analysis a proof about a returned task starts with. *)
Ltac returned_task H :=
  unfold mapTask in H;
  match type of H with
  | context [mapTask_projectName ?pr] =>
      let Ep := fresh "Ename" in
      destruct (mapTask_projectName pr) as [pn| |] eqn:Ep; try discriminate H
  end;
  match type of H with
  | context [mapTask_status ?st] =>
      let Es := fresh "Estatus" in
      destruct (mapTask_status st) as [st'|m'|] eqn:Es; try discriminate H
  end;
  inversion H; subst; clear H.

Ltac returned H :=
  returned_task H;
  cbn [Task.title Task.description Task.priority Task.status].

(** X7. The title of a task that [mapTask] returns is never empty and at
    most 80 characters long; a record with no description (or an empty
    one) is titled "Untitled" and has the empty description. *)
Theorem mapTask_title_bounds :
  forall t ags prjs local,
    mapTask t ags prjs = JS.Returns local ->
    let ti := Task.title local in
    ti <> "" /\ (String.length ti <= 80)%nat
    /\ (rt_description t = None \/ rt_description t = Some "" -> ti = "Untitled"
        /\ Task.description local = "").
Proof.
  assert (Hb : forall d : option string,
             let ti := JS.or_else (option_map (JS.substring 0 80) d) "Untitled" in
             ti <> "" /\ (String.length ti <= 80)%nat
             /\ (d = None \/ d = Some "" ->
                 ti = "Untitled" /\ JS.or_else d "" = "")).
  { intros [d|]; simpl.
    - unfold JS.substring. simpl Nat.sub.
      pose proof (substring_short 80 d) as Hs.
      destruct (String.substring 0 80 d) eqn:E; simpl.
      + split; [discriminate|]. split; [lia|]. intros [H|H]; [discriminate|].
        inversion H; subst. auto.
      + split; [discriminate|]. split; [exact Hs|]. intros [H|H]; [discriminate|].
        inversion H; subst. discriminate E.
    - split; [discriminate|]. split; [lia|]. auto. }
  intros t ags prjs local H ti. subst ti. returned H; apply Hb.
Qed.

Lemma mapTask_title_bounds_witness :
  mapTask rawTaskBare [] [] <> JS.Throws
  /\ rt_description rawTaskBare = None
  /\ exists local,
       mapTask rawTaskBare [] [] = JS.Returns local
       /\ Task.title local = "Untitled"
       /\ Task.description local = "".
Proof.
  split; [discriminate|]. split; [reflexivity|].
  eexists. split; [reflexivity|].
  exact (proj2 (proj2 (mapTask_title_bounds rawTaskBare [] [] _ eq_refl))
           (or_introl eq_refl)).
Defined.

(** X8. Reading a remote task and writing it back, for a task that
    [mapTask] returns: the statuses "todo", "in_progress" and "done" come
    back as they were, "failed" comes back as "in_progress", and any other
    or missing status is read as pending and comes back as "todo"; the
    priorities 1 to 4 come back as they were, 5 comes back as 4, and any
    other or missing priority is read as medium.  A status that names a
    member of [Object.prototype] ("constructor", "toString", ...) is not
    read as pending: [mapTask] returns no task for it. *)
Theorem mapTask_round_trips :
  forall t ags prjs,
    (forall local, mapTask t ags prjs = JS.Returns local ->
       (forall s, In s ["todo"; "in_progress"; "done"] -> rt_status t = Some s ->
           remoteStatus (Task.status local) = s)
       /\ (rt_status t = Some "failed" ->
           remoteStatus (Task.status local) = "in_progress")
       /\ ((forall s, rt_status t = Some s ->
               ~ In s ["todo"; "in_progress"; "done"; "failed"]) ->
           Task.status local = pending
           /\ remoteStatus (Task.status local) = "todo")
       /\ (forall n, (1 <= n <= 4)%Z -> rt_priority t = Some n ->
           JS.lookup (priority_token (Task.priority local)) priorityMap = Some n)
       /\ (rt_priority t = Some 5%Z ->
           JS.lookup (priority_token (Task.priority local)) priorityMap = Some 4%Z)
       /\ ((forall n, rt_priority t = Some n -> (n < 1 \/ 5 < n)%Z) ->
           Task.priority local = medium))
    /\ (forall m, rt_status t = Some m -> In m JS.proto_members ->
          forall local, mapTask t ags prjs <> JS.Returns local).
Proof.
  intros t ags prjs. split.
  - intros local H.
    assert (Hp : (forall n, (1 <= n <= 4)%Z -> rt_priority t = Some n ->
                    JS.lookup (priority_token (Task.priority local)) priorityMap
                    = Some n)
                 /\ (rt_priority t = Some 5%Z ->
                     JS.lookup (priority_token (Task.priority local)) priorityMap
                     = Some 4%Z)
                 /\ ((forall n, rt_priority t = Some n -> (n < 1 \/ 5 < n)%Z) ->
                     Task.priority local = medium)).
    { returned H.
      all: split; [|split].
      all: try (intros n Hn E; rewrite E;
                assert (n = 1 \/ n = 2 \/ n = 3 \/ n = 4)%Z
                  as [->|[->|[->| ->]]] by lia; reflexivity).
      all: try (intros E; rewrite E; reflexivity).
      all: intros Hn; destruct (rt_priority t) as [n|]; [|reflexivity];
        specialize (Hn n eq_refl); unfold mapTask_priorityMap; simpl;
        destruct (Z.eqb_spec n 1); [lia|];
        destruct (Z.eqb_spec n 2); [lia|];
        destruct (Z.eqb_spec n 3); [lia|];
        destruct (Z.eqb_spec n 4); [lia|];
        destruct (Z.eqb_spec n 5); [lia|]; reflexivity. }
    destruct Hp as (Hp1 & Hp2 & Hp3).
    assert (Hs : (forall s, In s ["todo"; "in_progress"; "done"] ->
                    rt_status t = Some s -> remoteStatus (Task.status local) = s)
                 /\ (rt_status t = Some "failed" ->
                     remoteStatus (Task.status local) = "in_progress")
                 /\ ((forall s, rt_status t = Some s ->
                         ~ In s ["todo"; "in_progress"; "done"; "failed"]) ->
                     Task.status local = pending
                     /\ remoteStatus (Task.status local) = "todo")).
    { returned H.
      - (* an own key of the table *)
        unfold mapTask_status in Estatus.
        destruct (rt_status t) as [s|]; [|discriminate Estatus].
        unfold JS.get in Estatus.
        destruct (JS.lookup s mapTask_statusMap) as [v|] eqn:El;
          [|destruct (List.existsb _ _); discriminate Estatus].
        inversion Estatus; subst v. clear Estatus.
        apply statusMap_cases in El.
        destruct El as [(-> & ->)|[(-> & ->)|[(-> & ->)|(-> & ->)]]].
        all: split; [|split].
        all: try (intros s0 Hin E0; inversion E0; subst s0; simpl in Hin;
                  destruct Hin as [Hin|[Hin|[Hin|[]]]];
                  solve [reflexivity | discriminate Hin]).
        all: try (intros E0; solve [reflexivity | discriminate E0]).
        all: intros Hno; exfalso; apply (Hno _ eq_refl); simpl; auto 6.
      - (* no own key and no member of the prototype *)
        split; [|split].
        + intros s Hin E0. exfalso.
          unfold mapTask_status in Estatus. rewrite E0 in Estatus.
          simpl in Hin. destruct Hin as [<-|[<-|[<-|[]]]]; discriminate Estatus.
        + intros E0. exfalso.
          unfold mapTask_status in Estatus. rewrite E0 in Estatus.
          discriminate Estatus.
        + intros _. split; reflexivity. }
    destruct Hs as (Hs1 & Hs2 & Hs3).
    repeat split; auto; apply Hs3; auto.
  - intros m E Hin local H.
    assert (Hi : mapTask_status (rt_status t) = JS.Inherited m)
      by (apply mapTask_status_inherited; auto).
    unfold mapTask in H. rewrite Hi in H.
    destruct (mapTask_projectName _); discriminate H.
Qed.

Lemma mapTask_round_trips_witness :
  rt_status rawTaskA = Some "failed"
  /\ rt_priority rawTaskA = Some 5%Z
  /\ rt_status rawTaskOdd = Some "constructor"
  /\ (exists local,
        mapTask rawTaskA [] [rawProjectA] = JS.Returns local
        /\ remoteStatus (Task.status local) = "in_progress"
        /\ JS.lookup (priority_token (Task.priority local)) priorityMap = Some 4%Z)
  /\ (exists local,
        mapTask rawTaskBare [] [] = JS.Returns local
        /\ Task.status local = pending
        /\ Task.priority local = medium)
  /\ (forall local, mapTask rawTaskOdd [] [] <> JS.Returns local).
Proof.
  split; [reflexivity|]. split; [reflexivity|]. split; [reflexivity|].
  split; [|split].
  - eexists. split; [reflexivity|].
    destruct (proj1 (mapTask_round_trips rawTaskA [] [rawProjectA]) _ eq_refl)
      as (_ & Hfailed & _ & _ & Hfive & _).
    split; [exact (Hfailed eq_refl) | exact (Hfive eq_refl)].
  - eexists. split; [reflexivity|].
    destruct (proj1 (mapTask_round_trips rawTaskBare [] []) _ eq_refl)
      as (_ & _ & Hother & _ & _ & Hprio).
    split.
    + apply Hother. intros s H. discriminate H.
    + apply Hprio. intros n H. discriminate H.
  - apply (proj2 (mapTask_round_trips rawTaskOdd [] []) "constructor" eq_refl).
    left. reflexivity.
Defined.

Lemma filter_le {A} (f : A -> bool) l : (List.length (List.filter f l) <= List.length l)%nat.
Proof. induction l as [|a r IH]; simpl; [lia|]. destruct (f a); simpl; lia. Qed.

(** X9. The counts [mapProject] derives: the completed-task count never
    exceeds the task count, which never exceeds the number of remote tasks,
    and is zero exactly when no remote task names the project. *)
Theorem mapProject_counts :
  forall p ds rts,
    let pr := mapProject p ds rts in
    (Project.completedTaskCount pr <= Project.taskCount pr)%nat
    /\ (Project.taskCount pr <= List.length rts)%nat
    /\ (Project.taskCount pr = 0%nat <->
        forall t, In t rts -> rt_project_id t <> Some (rp_id p)).
Proof.
  intros p ds rts pr. subst pr. unfold mapProject; simpl.
  split; [apply filter_le|]. split; [apply filter_le|].
  split.
  - intros H t Hin Heq.
    assert (In t (filter (fun t0 => JS.opt_eqb (rt_project_id t0) (Some (rp_id p))) rts)).
    { apply filter_In. split; auto. rewrite Heq. simpl. apply String.eqb_refl. }
    destruct (filter _ rts); [contradiction|discriminate].
  - intros H. destruct (filter _ rts) as [|t r] eqn:E; auto.
    exfalso. assert (Hin : In t (filter (fun t0 => JS.opt_eqb (rt_project_id t0) (Some (rp_id p))) rts)) by (rewrite E; left; auto).
    apply filter_In in Hin. destruct Hin as [Hin Heq].
    apply (H t Hin). destruct (opt_eqb_spec (rt_project_id t) (Some (rp_id p))); congruence.
Qed.

Lemma project_fields_of (found : option RawProject) pn (l : Task.t) :
  mapTask_projectName found = JS.Returns pn ->
  Task.projectName l = pn ->
  Task.projectShortCode l
  = JS.or_undefined (Some (JS.or_else
      (match (match found with Some p => rp_title p | None => None end) with
       | Some ti => JS.match_PR ti | None => None end) "")) ->
  (found = None ->
     Task.projectName l = None /\ Task.projectShortCode l = None)
  /\ (forall p, found = Some p -> rp_title p <> None)
  /\ (forall p ti ds rts, found = Some p -> rp_title p = Some ti ->
        Task.projectName l = Some (JS.strip_PR ti)
        /\ (forall c, Task.projectShortCode l = Some c ->
              Project.shortCode (mapProject p ds rts) = c)
        /\ (JS.match_PR ti = None ->
              Task.projectShortCode l = None
              /\ Project.shortCode (mapProject p ds rts) = JS.substring 0 4 ti)).
Proof.
  intros En Hn Hc. rewrite Hn, Hc. clear Hn Hc.
  unfold mapTask_projectName in En.
  destruct found as [q|].
  - destruct (rp_title q) as [tq|] eqn:Eq; [|discriminate En].
    inversion En; subst pn. clear En.
    split; [discriminate|]. split; [intros p E; inversion E; subst; congruence|].
    intros p ti ds rts E Ht. inversion E; subst q. rewrite Eq in Ht.
    inversion Ht; subst tq. split; [reflexivity|].
    unfold mapProject, mapProject_shortCode; simpl. rewrite Eq. simpl.
    destruct (JS.match_PR ti) as [c|] eqn:Em; simpl.
    + destruct c as [|a r]; simpl.
      * split; [discriminate|]. intros H0; discriminate.
      * split; [intros c H0; inversion H0; reflexivity|]. intros H0; discriminate.
    + split; [discriminate|]. intros _. split; [reflexivity|].
      destruct (JS.substring 0 4 ti); reflexivity.
  - inversion En; subst pn. split; [auto|]. split; discriminate.
Qed.

(** X10. The project fields of a task that [mapTask] returns: none when
    no project has the task's project id; otherwise the project has a
    title, and the task carries that title without its "PR.CODE |" prefix
    and a short code that, when present, is the one [mapProject] gives
    that project.  When the title has no PR code the task gets no short
    code although the project gets the first four characters of its
    title. *)
Theorem mapTask_project_fields :
  forall t ags prjs local,
    mapTask t ags prjs = JS.Returns local ->
    let found := List.find (fun p => JS.opt_eqb (Some (rp_id p)) (rt_project_id t)) prjs in
    (found = None ->
       Task.projectName local = None /\ Task.projectShortCode local = None)
    /\ (forall p, found = Some p -> rp_title p <> None)
    /\ (forall p ti ds rts, found = Some p -> rp_title p = Some ti ->
          Task.projectName local = Some (JS.strip_PR ti)
          /\ (forall c, Task.projectShortCode local = Some c ->
                Project.shortCode (mapProject p ds rts) = c)
          /\ (JS.match_PR ti = None ->
                Task.projectShortCode local = None
                /\ Project.shortCode (mapProject p ds rts) = JS.substring 0 4 ti)).
Proof.
  intros t ags prjs local H found. subst found.
  returned_task H;
    (eapply project_fields_of; [exact Ename|reflexivity|reflexivity]).
Qed.

Lemma mapTask_project_fields_witness :
  List.find (fun p => JS.opt_eqb (Some (rp_id p)) (rt_project_id rawTaskA))
    [rawProjectA] = Some rawProjectA
  /\ exists local,
       mapTask rawTaskA [] [rawProjectA] = JS.Returns local
       /\ Task.projectName local = Some "Q1 Growth Push"
       /\ (forall c, Task.projectShortCode local = Some c ->
             Project.shortCode (mapProject rawProjectA [] []) = c).
Proof.
  split; [reflexivity|].
  eexists. split; [reflexivity|].
  destruct (proj2 (proj2 (mapTask_project_fields rawTaskA [] [rawProjectA] _
                            eq_refl))
              rawProjectA "PR.GRW | Q1 Growth Push" [] [] eq_refl eq_refl)
    as (Hname & Hcode & _).
  split; [exact Hname | exact Hcode].
Defined.

Lemma mapTask_projectName_no_misfit project m :
  mapTask_projectName project <> JS.Misfit m.
Proof.
  unfold mapTask_projectName.
  destruct project as [p|]; [destruct (rp_title p)|]; discriminate.
Qed.

(** X26. What [mapTask] comes to.  It raises a [TypeError] exactly when
    the record names a project of the list that has no title.  Otherwise
    it returns an object that is no task exactly when the status of the
    record names a member of [Object.prototype], which the status table
    then answers with in place of a status.  In every other case it
    returns a task. *)
Theorem mapTask_outcomes :
  forall t ags prjs,
    let found :=
      List.find (fun p => JS.opt_eqb (Some (rp_id p)) (rt_project_id t)) prjs in
    (mapTask t ags prjs = JS.Throws <->
       exists p, found = Some p /\ rp_title p = None)
    /\ (forall m,
          mapTask t ags prjs = JS.Misfit m <->
          rt_status t = Some m /\ In m JS.proto_members
          /\ (forall p, found = Some p -> rp_title p <> None))
    /\ ((exists local, mapTask t ags prjs = JS.Returns local) <->
          (forall p, found = Some p -> rp_title p <> None)
          /\ (forall m, rt_status t = Some m -> ~ In m JS.proto_members)).
Proof.
  intros t ags prjs found.
  pose proof (mapTask_projectName_throws found) as HT.
  pose proof (mapTask_projectName_no_misfit found) as HM.
  pose proof (mapTask_status_inherited (rt_status t)) as HI.
  assert (Htitled : mapTask_projectName found <> JS.Throws <->
                    forall p, found = Some p -> rp_title p <> None).
  { rewrite HT. split.
    - intros Hn p Hp Ht. apply Hn. eauto.
    - intros Hn (p & Hp & Ht). exact (Hn p Hp Ht). }
  unfold mapTask. fold found.
  destruct (mapTask_projectName found) as [pn| |m0] eqn:Ep;
    [| |exfalso; exact (HM m0 eq_refl)].
  - assert (Hok : forall p, found = Some p -> rp_title p <> None)
      by (apply Htitled; discriminate).
    destruct (mapTask_status (rt_status t)) as [st|m1|] eqn:Es.
    + split; [|split].
      * split; [discriminate|]. intros H. apply HT in H. discriminate H.
      * intros m. split; [discriminate|]. intros (H1 & H2 & _).
        assert (E : JS.Own st = JS.Inherited m) by (apply HI; auto).
        discriminate E.
      * split; [|eauto]. intros _. split; [exact Hok|].
        intros m H1 H2.
        assert (E : JS.Own st = JS.Inherited m) by (apply HI; auto).
        discriminate E.
    + split; [|split].
      * split; [discriminate|]. intros H. apply HT in H. discriminate H.
      * intros m. split.
        -- intros H. inversion H; subst m1.
           destruct (proj1 (HI m) eq_refl) as [H1 H2]. auto.
        -- intros (H1 & H2 & _).
           assert (E : JS.Inherited m1 = JS.Inherited m) by (apply HI; auto).
           inversion E. reflexivity.
      * split.
        -- intros (local & H). discriminate H.
        -- intros (_ & Hn). exfalso.
           destruct (proj1 (HI m1) eq_refl) as [H1 H2]. exact (Hn m1 H1 H2).
    + split; [|split].
      * split; [discriminate|]. intros H. apply HT in H. discriminate H.
      * intros m. split; [discriminate|]. intros (H1 & H2 & _).
        assert (E : JS.Missing = JS.Inherited m) by (apply HI; auto).
        discriminate E.
      * split; [|eauto]. intros _. split; [exact Hok|].
        intros m H1 H2.
        assert (E : JS.Missing = JS.Inherited m) by (apply HI; auto).
        discriminate E.
  - assert (Hno : exists p, found = Some p /\ rp_title p = None)
      by (apply HT; reflexivity).
    destruct Hno as (p & Hp & Ht).
    split; [|split].
    + split; [eauto|reflexivity].
    + intros m. split; [discriminate|]. intros (_ & _ & Hn).
      exfalso. exact (Hn p Hp Ht).
    + split.
      * intros (local & H). discriminate H.
      * intros (Hn & _). exfalso. exact (Hn p Hp Ht).
Qed.

(** The three outcomes on sample records. *)
Lemma mapTask_outcomes_witness :
  mapTask rawTaskA [] [rawProjectBare] = JS.Throws
  /\ mapTask rawTaskOdd [] [rawProjectBare] = JS.Misfit "constructor"
  /\ exists local, mapTask rawTaskA [] [rawProjectA] = JS.Returns local.
Proof.
  split; [|split].
  - apply (proj1 (mapTask_outcomes rawTaskA [] [rawProjectBare])).
    exists rawProjectBare. split; reflexivity.
  - apply (proj1 (proj2 (mapTask_outcomes rawTaskOdd [] [rawProjectBare]))
             "constructor").
    split; [reflexivity|]. split; [left; reflexivity|].
    intros p H. discriminate H.
  - apply (proj2 (proj2 (mapTask_outcomes rawTaskA [] [rawProjectA]))).
    split.
    + intros p H. inversion H. discriminate.
    + intros m H. inversion H. intros Hin. simpl in Hin.
      repeat (destruct Hin as [Hin|Hin]; [discriminate Hin|]). exact Hin.
Defined.

(** ** Strings: trimming and the title prefix *)

Lemma space_not_word c : JS.is_space c = true -> JS.is_word c = false.
Proof.
  destruct c as [[] [] [] [] [] [] [] []]; vm_compute; intros H;
    solve [reflexivity | discriminate H].
Qed.

Lemma append_assoc x y z : ((x ++ y) ++ z)%string = (x ++ y ++ z)%string.
Proof. induction x; simpl; congruence. Qed.

Lemma rev_onto_app s : forall acc, JS.rev_onto s acc = (JS.rev s ++ acc)%string.
Proof.
  unfold JS.rev. induction s as [|c r IH]; intros acc; simpl; auto.
  rewrite IH, (IH (String c "")). rewrite append_assoc. reflexivity.
Qed.

Lemma append_nil_r s : (s ++ "")%string = s.
Proof. induction s; simpl; congruence. Qed.

Lemma rev_cons c r : JS.rev (String c r) = (JS.rev r ++ String c "")%string.
Proof. unfold JS.rev at 1. simpl. apply rev_onto_app. Qed.

Lemma rev_app x y : JS.rev (x ++ y)%string = (JS.rev y ++ JS.rev x)%string.
Proof.
  induction x as [|c r IH].
  - simpl. symmetry. apply append_nil_r.
  - change (String c r ++ y)%string with (String c (r ++ y)%string).
    rewrite !rev_cons, IH. apply append_assoc.
Qed.

Lemma rev_involutive s : JS.rev (JS.rev s) = s.
Proof.
  induction s as [|c r IH]; auto.
  rewrite rev_cons, rev_app, IH. reflexivity.
Qed.

Lemma blank_app x y : blank (x ++ y)%string = blank x && blank y.
Proof. induction x as [|c r IH]; simpl; auto. rewrite IH. apply andb_assoc. Qed.

Lemma blank_rev s : blank (JS.rev s) = blank s.
Proof.
  induction s as [|c r IH]; auto.
  rewrite rev_cons, blank_app, IH. simpl. rewrite andb_true_r. apply andb_comm.
Qed.

Lemma blank_drop s : blank (JS.drop_while JS.is_space s) = blank s.
Proof.
  induction s as [|c r IH]; simpl; auto.
  destruct (JS.is_space c) eqn:E; simpl; auto. rewrite E. reflexivity.
Qed.

Lemma drop_starts s : starts_with_space (JS.drop_while JS.is_space s) = false.
Proof.
  induction s as [|c r IH]; simpl; auto.
  destruct (JS.is_space c) eqn:E; simpl; auto.
Qed.

Lemma drop_split p s :
  exists pre, s = (pre ++ JS.drop_while p s)%string.
Proof.
  induction s as [|c r [pre IH]]; simpl.
  - exists "". reflexivity.
  - destruct (p c).
    + exists (String c pre). simpl. f_equal. exact IH.
    + exists "". reflexivity.
Qed.

Lemma starts_app x y :
  x <> "" -> starts_with_space (x ++ y)%string = starts_with_space x.
Proof. destruct x; simpl; congruence. Qed.

Lemma blank_trim_iff s : JS.truthy (JS.trim s) = negb (blank s).
Proof.
  unfold JS.trim.
  assert (H : blank (JS.rev (JS.drop_while JS.is_space (JS.rev (JS.drop_while JS.is_space s)))) = blank s).
  { rewrite blank_rev, blank_drop, blank_rev, blank_drop. reflexivity. }
  destruct (blank s) eqn:Eb.
  - rewrite (drop_while_blank s Eb). reflexivity.
  - destruct (JS.rev _); simpl in *; [discriminate|reflexivity].
Qed.

Lemma trim_edges s :
  starts_with_space (JS.trim s) = false /\ ends_with_space (JS.trim s) = false.
Proof.
  unfold JS.trim, ends_with_space. rewrite rev_involutive.
  set (a := JS.drop_while JS.is_space s).
  split; [|apply drop_starts].
  destruct (drop_split JS.is_space (JS.rev a)) as [pre Hpre].
  set (c := JS.drop_while JS.is_space (JS.rev a)) in *.
  assert (Ha : a = (JS.rev c ++ JS.rev pre)%string).
  { rewrite <- rev_app, <- Hpre, rev_involutive. reflexivity. }
  destruct (JS.rev c) as [|x r] eqn:Ec; [reflexivity|].
  pose proof (drop_starts s) as Hs. fold a in Hs. rewrite Ha in Hs. simpl in *. exact Hs.
Qed.

Lemma drop_word_app code rest :
  all_word code = true -> starts_with_word rest = false ->
  JS.drop_while JS.is_word (code ++ rest)%string = rest.
Proof.
  intros Hc Hr. induction code as [|c r IH]; simpl in *.
  - destruct rest as [|c r]; simpl in *; auto. rewrite Hr. reflexivity.
  - apply andb_true_iff in Hc. destruct Hc as [H1 H2]. rewrite H1. auto.
Qed.

Lemma drop_space_app ws rest :
  blank ws = true -> starts_with_space rest = false ->
  JS.drop_while JS.is_space (ws ++ rest)%string = rest.
Proof.
  intros Hc Hr. induction ws as [|c r IH]; simpl in *.
  - destruct rest as [|c r]; simpl in *; auto. rewrite Hr. reflexivity.
  - apply andb_true_iff in Hc. destruct Hc as [H1 H2]. rewrite H1. auto.
Qed.

Lemma blank_not_word ws rest :
  blank ws = true -> starts_with_word rest = false ->
  starts_with_word (ws ++ rest)%string = false.
Proof.
  destruct ws as [|c r]; simpl; auto. intros H _.
  apply andb_true_iff in H. destruct H as [H _]. apply space_not_word. exact H.
Qed.

(** X11. A title of the form PR.CODE, optional blanks, a bar, optional
    blanks, then a name that does not start with a blank, is displayed as
    the name alone, and CODE is its short code. *)
Theorem strip_PR_display :
  forall code ws1 ws2 name,
    code <> "" -> all_word code = true ->
    blank ws1 = true -> blank ws2 = true -> starts_with_space name = false ->
    let title := ("PR." ++ code ++ ws1 ++ "|" ++ ws2 ++ name)%string in
    JS.strip_PR title = name /\ JS.match_PR title = Some code.
Proof.
  intros code ws1 ws2 name Hne Hw H1 H2 Hn title.
  assert (Hrest : starts_with_word (ws1 ++ "|" ++ ws2 ++ name)%string = false).
  { apply blank_not_word; auto. }
  split.
  - unfold title, JS.strip_PR. rewrite after_prefix_app.
    rewrite (take_while_word code _ Hw Hrest).
    rewrite (drop_word_app code _ Hw Hrest).
    rewrite (drop_space_app ws1 ("|" ++ ws2 ++ name)%string H1 eq_refl).
    simpl. rewrite (drop_space_app ws2 name H2 Hn).
    destruct code; [congruence|reflexivity].
  - apply (match_PR_matches code _ Hne Hw Hrest).
Qed.

(** The title of [projectA]. *)
Lemma strip_PR_display_witness :
  all_word "GRW" = true /\ blank " " = true
  /\ starts_with_space "Q1 Growth Push" = false
  /\ JS.strip_PR "PR.GRW | Q1 Growth Push" = "Q1 Growth Push".
Proof.
  split; [reflexivity|]. split; [reflexivity|]. split; [reflexivity|].
  exact (proj1 (strip_PR_display "GRW" " " " " "Q1 Growth Push"
                  (fun H => match H with eq_refl => I end)
                  eq_refl eq_refl eq_refl eq_refl)).
Defined.

(** ** The forms *)

Lemma truthy_ne s : JS.truthy s = true <-> s <> "".
Proof. destruct s; simpl; split; congruence. Qed.

(** X12. A title that is not blank passes each of the three task forms:
    the create handler is called with the trimmed title, which is not empty
    and has no whitespace at either end, and with a description that is
    not empty (the trimmed title itself when the form has none). *)
Theorem forms_send_trimmed_titles :
  forall title, blank title = false ->
    let sent := JS.trim title in
    (sent <> "" /\ starts_with_space sent = false /\ ends_with_space sent = false)
    /\ (forall onCreateTask form, TaskBoard.title form = title ->
          exists data,
            TaskBoard.handleCreateTask (Some onCreateTask) form = onCreateTask data
            /\ td_title data = sent /\ td_description data <> ""
            /\ (blank (TaskBoard.description form) = true -> td_description data = sent))
    /\ (forall onSubmit priority assignedTo projectId,
          exists data,
            TaskCaptureModal.handleSubmit onSubmit title priority assignedTo projectId
            = onSubmit data
            /\ td_title data = sent /\ td_description data = sent)
    /\ (forall project onCreateTask priority assignee,
          exists data,
            ProjectDetail.handleCreateTask project onCreateTask title priority assignee
            = onCreateTask data
            /\ td_title data = sent /\ td_description data = sent
            /\ td_projectId data = Some (Project.id project)).
Proof.
  intros title Hb sent.
  assert (Ht : JS.truthy sent = true).
  { unfold sent. rewrite blank_trim_iff, Hb. reflexivity. }
  split.
  { split; [apply truthy_ne; exact Ht|]. apply trim_edges. }
  split; [|split].
  - intros cb form Hf. destruct form as [ti d p a pid]. simpl in Hf. subst ti.
    unfold TaskBoard.handleCreateTask. simpl. fold sent. rewrite Ht. simpl.
    eexists. split; [reflexivity|]. simpl. split; [reflexivity|]. split.
    + destruct (JS.trim d); simpl; [apply truthy_ne; exact Ht|discriminate].
    + intros Hd. rewrite (blank_trim d Hd). reflexivity.
  - intros. unfold TaskCaptureModal.handleSubmit. fold sent. rewrite Ht. simpl.
    eexists. split; [reflexivity|]. split; reflexivity.
  - intros. unfold ProjectDetail.handleCreateTask. fold sent. rewrite Ht. simpl.
    eexists. split; [reflexivity|]. repeat split.
Qed.

(** A padded title sent from the quick-capture modal. *)
Lemma forms_send_trimmed_titles_witness :
  blank "  Call Ana " = false
  /\ JS.trim "  Call Ana " = "Call Ana"
  /\ exists data,
       TaskCaptureModal.handleSubmit (handleCreateTask fixedISO false [])
         "  Call Ana " medium "tiger" ""
       = handleCreateTask fixedISO false [] data
       /\ td_title data = "Call Ana".
Proof.
  split; [reflexivity|]. split; [reflexivity|].
  destruct (proj1 (proj2 (proj2 (forms_send_trimmed_titles "  Call Ana " eq_refl)))
              (handleCreateTask fixedISO false []) medium "tiger" "")
    as (data & H1 & H2 & _).
  exists data. split; [exact H1|exact H2].
Defined.

(** X13. A blank title is refused by the goal form, by the inline edit of
    a goal's title and by the idea form: none of them calls its handler,
    so a goal cannot be given a blank title from the Strategy view. *)
Theorem blank_goal_or_idea_title_is_refused :
  forall title, blank title = true ->
    (forall onCreateGoal desc owner date,
        GoalForms.handleCreateGoal onCreateGoal title desc owner date = Done)
    /\ (forall onUpdateGoal goalId,
        GoalForms.saveTitleEdit onUpdateGoal goalId title = Done)
    /\ (forall onSubmit desc image view priority,
        IdeaCaptureModal.handleSubmit onSubmit title desc image view priority = Done)
    /\ (forall env isLive snapshot goalId w,
        goals (store (exec env
           (GoalForms.saveTitleEdit (Some (handleUpdateGoal isLive snapshot)) goalId title) w))
        = goals (store w)).
Proof.
  intros title Hb. pose proof (blank_trim title Hb) as Ht.
  unfold GoalForms.handleCreateGoal, GoalForms.saveTitleEdit, IdeaCaptureModal.handleSubmit.
  rewrite Ht. simpl. repeat split; intros; try reflexivity.
  destruct onUpdateGoal; reflexivity.
Qed.

(** A title of two spaces typed into the goal form. *)
Lemma blank_goal_or_idea_title_is_refused_witness :
  blank "  " = true
  /\ GoalForms.handleCreateGoal (Some (handleCreateGoal true [])) "  " "" "" "" = Done.
Proof.
  split; [reflexivity|].
  exact (proj1 (blank_goal_or_idea_title_is_refused "  " eq_refl)
           (Some (handleCreateGoal true [])) "" "" "").
Defined.

(** X14. The inline edit of a task's title has no such guard: the typed
    value becomes the title as it is, even when empty.  Live, the remote
    call carries the value (as the description) only when it is not empty,
    and then the activity entry lists "title"; an emptied title changes the
    local copy alone. *)
Theorem inline_title_edit_is_unguarded :
  forall env snapshot taskId v w,
    let onUpdateTask := handleUpdateTask true snapshot in
    tasks (store (exec env (Board.saveEdit (Some onUpdateTask) taskId "title" v) w))
    = List.map (fun t => if String.eqb (Task.id t) taskId
                         then Task.merge t (titlePatch v) else t)
        (tasks (store w))
    /\ (forall t, Task.title (Task.merge t (titlePatch v)) = v)
    /\ (exists w1 k,
          start (clock env) (Board.saveEdit (Some onUpdateTask) taskId "title" v) w
          = Awaiting w1
              (updateTaskFull taskId (if JS.truthy v then Some v else None)
                 None None None) k)
    /\ logs_if_found
         (List.find (fun t => String.eqb (Task.id t) taskId) snapshot) w
         (exec env (Board.saveEdit (Some onUpdateTask) taskId "title" v) w)
         "Updated task"
         (fun task => (Task.title task ++ ": "
                       ++ (if JS.truthy v then "title" else ""))%string).
Proof.
  intros env snapshot taskId v w cb. subst cb.
  split; [|split; [|split]].
  - unfold Board.saveEdit. cbv beta iota. rewrite updateTask_store. reflexivity.
  - reflexivity.
  - unfold Board.saveEdit, handleUpdateTask. simpl.
    destruct (JS.truthy v); do 2 eexists; reflexivity.
  - pose proof (log_updateTask env w true snapshot taskId
                  (Task.mk_patch None (Some v) None None None None None None None
                     None None None None None)) as H.
    unfold Board.saveEdit. cbv beta iota.
    change (if String.eqb "title" "title" then Some v else None) with (Some v).
    change (if String.eqb "title" "description" then Some v else @None string)
      with (@None string).
    destruct (List.find _ snapshot); simpl in *; [|exact H].
    destruct H as (item & H1 & H2 & H3 & H4).
    exists item. repeat split; auto.
    rewrite H3. unfold taskChanges. simpl. destruct (JS.truthy v); reflexivity.
Qed.

(** ** The task board *)



Lemma col_split shown :
  List.length shown
  = (List.length (Board.colTasks shown pending)
     + List.length (Board.colTasks shown in_progress)
     + List.length (Board.colTasks shown review)
     + List.length (Board.colTasks shown completed))%nat.
Proof.
  induction shown as [|t r IH]; simpl; auto.
  destruct (Task.status t); simpl; lia.
Qed.

(** X16. The board loses and repeats nothing: under every filter the
    four columns split the tasks shown, each task standing in the column
    of its status and in no other; the "tiger" and "agents" filters split
    what the "all" filter shows; with both filters at "all" every task is shown; and a filter
    never shows a task that is not in the collection. *)
Theorem board_partitions :
  forall ts pf,
    (forall f,
     let shown := Board.filtered ts f pf in
     List.length shown
     = (List.length (Board.colTasks shown pending)
        + List.length (Board.colTasks shown in_progress)
        + List.length (Board.colTasks shown review)
        + List.length (Board.colTasks shown completed))%nat
     /\ forall t col, In t (Board.colTasks shown col) <-> In t shown /\ Task.status t = col)
    /\ (List.length (Board.filtered ts Board.filter_tiger pf)
        + List.length (Board.filtered ts Board.filter_agents pf)
        = List.length (Board.filtered ts Board.filter_all pf))%nat
    /\ Board.filtered ts Board.filter_all "all" = ts
    /\ (forall f t, In t (Board.filtered ts f pf) -> In t ts).
Proof.
  intros ts pf. split; [|split; [|split]].
  - intros f. split; [apply col_split|].
    intros t col. unfold Board.colTasks. rewrite filter_In.
    split; intros [H1 H2]; split; auto.
    + apply TaskStatus_eqb_eq. exact H2.
    + apply TaskStatus_eqb_eq. exact H2.
  - unfold Board.filtered.
    match goal with
    | |- (List.length (List.filter ?a _) + List.length (List.filter ?b _)
          = List.length (List.filter ?c _))%nat =>
        set (A := a); set (B := b); set (C := c)
    end.
    assert (Hp : forall t, ((if A t then 1 else 0) + (if B t then 1 else 0)
                            = (if C t then 1 else 0))%nat).
    { intros t. unfold A, B, C.
      destruct (String.eqb (Task.assignedTo t) "tiger"),
               (String.eqb pf "all"), (String.eqb pf "none"),
               (given (Task.projectId t)),
               (JS.opt_eqb (Task.projectId t) (Some pf)); reflexivity. }
    clearbody A B C.
    induction ts as [|t r IH]; cbn [List.filter List.length]; auto.
    specialize (Hp t). destruct (A t), (B t), (C t); cbn [List.length] in *; lia.
  - unfold Board.filtered. simpl. induction ts as [|t r IH]; simpl; congruence.
  - intros f t H. unfold Board.filtered in H. apply filter_In in H. tauto.
Qed.

(** X17. Reassigning a task from the board keeps its project fields
    together: the task gets the chosen project id, the title of that
    project without its prefix and its short code, or no name and no code
    when no project has that id (in particular when the project is
    cleared); nothing else of the task changes. *)
Theorem project_change_keeps_fields_consistent :
  forall env isLive snapshot projects taskId projectId w n t,
    nth_error (tasks (store w)) n = Some t -> Task.id t = taskId ->
    let w' := exec env (Board.handleProjectChange projects
                          (Some (handleUpdateTask isLive snapshot)) taskId projectId) w in
    exists t',
      nth_error (tasks (store w')) n = Some t'
      /\ t' = with_project t (Task.projectId t') (Task.projectName t')
                (Task.projectShortCode t')
      /\ match List.find (fun p => String.eqb (Project.id p) projectId) projects with
         | Some p =>
             Task.projectId t' = JS.or_undefined (Some projectId)
             /\ Task.projectName t' = Some (JS.strip_PR (Project.title p))
             /\ Task.projectShortCode t' = JS.or_undefined (Some (Project.shortCode p))
         | None =>
             Task.projectId t' = JS.or_undefined (Some projectId)
             /\ Task.projectName t' = None /\ Task.projectShortCode t' = None
         end.
Proof.
  intros env isLive snapshot projects taskId projectId w n t Hn Hid w'.
  unfold w', Board.handleProjectChange. cbv beta iota zeta.
  rewrite updateTask_store, nth_error_map, Hn. simpl.
  rewrite Hid, String.eqb_refl. eexists. split; [reflexivity|].
  split; [destruct t; reflexivity|].
  destruct (List.find _ projects); simpl; auto.
Qed.

(** [taskB] moved to project "p1". *)
Lemma project_change_keeps_fields_consistent_witness :
  nth_error (tasks (store (freshWorld boardStore))) 1 = Some taskB
  /\ exists t',
       nth_error
         (tasks (store (exec env42
            (Board.handleProjectChange [projectA]
               (Some (handleUpdateTask true [taskA; taskB])) "t2" "p1")
            (freshWorld boardStore)))) 1 = Some t'
       /\ Task.projectId t' = Some "p1"
       /\ Task.projectName t' = Some "Q1 Growth Push"
       /\ Task.projectShortCode t' = Some "GRW".
Proof.
  split; [reflexivity|].
  destruct (project_change_keeps_fields_consistent env42 true [taskA; taskB]
              [projectA] "t2" "p1" (freshWorld boardStore) 1 taskB eq_refl eq_refl)
    as (t' & Hn & _ & H1 & H2 & H3).
  exists t'. split; [exact Hn|]. split; [exact H1|]. split; [exact H2|exact H3].
Defined.

(** ** The progress field *)

Lemma digits_acc d : forall a,
  Strategy.digits 10 (NilEmpty.string_of_uint d) (Some (Zpos a))
  = Some (Zpos (Pos.of_uint_acc d a)).
Proof.
  induction d; intros a; cbn [NilEmpty.string_of_uint Strategy.digits Pos.of_uint_acc];
    try reflexivity;
    match goal with
    | |- context [Strategy.digit 10 ?c] =>
        change (Strategy.digit 10 c) with (Some (Z.of_nat (nat_of_ascii c) - 48)%Z)
    end; cbn [nat_of_ascii]; simpl Z.sub;
    match goal with
    | |- Strategy.digits 10 _ (Some ?v) = _ =>
        match goal with
        | |- _ = Some (Zpos (Pos.of_uint_acc _ ?q)) =>
            replace v with (Zpos q) by lia
        end
    end; apply IHd.
Qed.

Lemma digits_zero d :
  Strategy.digits 10 (NilEmpty.string_of_uint d) (Some 0%Z)
  = Some (Z.of_N (Pos.of_uint d)).
Proof.
  induction d; cbn [NilEmpty.string_of_uint Strategy.digits Pos.of_uint];
    try reflexivity;
    match goal with
    | |- context [Strategy.digit 10 ?c] =>
        change (Strategy.digit 10 c) with (Some (Z.of_nat (nat_of_ascii c) - 48)%Z)
    end; cbn [nat_of_ascii]; simpl Z.sub; simpl Z.add.
  - exact IHd.
  - apply (digits_acc d 1).
  - apply (digits_acc d 2).
  - apply (digits_acc d 3).
  - apply (digits_acc d 4).
  - apply (digits_acc d 5).
  - apply (digits_acc d 6).
  - apply (digits_acc d 7).
  - apply (digits_acc d 8).
  - apply (digits_acc d 9).
Qed.

Lemma mathInt_uint d :
  d <> Decimal.Nil ->
  Strategy.mathInt (NilEmpty.string_of_uint d) = Some (Z.of_N (Pos.of_uint d)).
Proof.
  intros Hd. pose proof (digits_zero d) as Hz.
  destruct d as [|l|l|l|l|l|l|l|l|l|l]; [congruence| | | | | | | | | |].
  1: destruct l.
  all: cbn [NilEmpty.string_of_uint] in *; unfold Strategy.mathInt;
       cbn [JS.drop_while]; 
       match goal with
       | |- context [JS.is_space ?c] => change (JS.is_space c) with false
       end; cbv beta iota;
       cbn [Strategy.digits] in *;
       repeat match goal with
       | H : context [Strategy.digit 10 ?c] |- _ =>
           change (Strategy.digit 10 c) with (Some (Z.of_nat (nat_of_ascii c) - 48)%Z) in H
       | |- context [Strategy.digit 10 ?c] =>
           change (Strategy.digit 10 c) with (Some (Z.of_nat (nat_of_ascii c) - 48)%Z)
       end; cbn [nat_of_ascii] in *; simpl Z.sub in *; simpl Z.add in *;
       rewrite Hz; cbn [option_map]; f_equal; apply Z.mul_1_l.
Qed.

Lemma mathInt_of_Z z : Strategy.mathInt (JS.of_Z z) = Some z.
Proof.
  unfold JS.of_Z. destruct z as [|p|p]; simpl Z.to_int.
  - reflexivity.
  - unfold NilZero.string_of_int, NilZero.string_of_uint.
    pose proof (Unsigned.to_uint_nonnil p) as Hn.
    destruct (Pos.to_uint p) eqn:E; [congruence| | | | | | | | | |];
      rewrite <- E, mathInt_uint, Unsigned.of_to; auto; rewrite E; discriminate.
  - unfold NilZero.string_of_int, NilZero.string_of_uint.
    pose proof (Unsigned.to_uint_nonnil p) as Hn.
    pose proof (mathInt_uint (Pos.to_uint p) Hn) as Hu.
    rewrite (Unsigned.of_to p) in Hu.
    destruct (Pos.to_uint p) as [|l|l|l|l|l|l|l|l|l|l];
      [congruence| | | | | | | | | |].
    1: destruct l.
    all: cbn [NilEmpty.string_of_uint] in *; unfold Strategy.mathInt in *;
         cbn [JS.drop_while] in *;
         repeat match goal with
         | H : context [JS.is_space ?c] |- _ =>
             change (JS.is_space c) with false in H
         | |- context [JS.is_space ?c] => change (JS.is_space c) with false
         end; cbv beta iota in *;
         match goal with
         | |- option_map _ ?x = _ => destruct x as [[|q|q]|]
         end; simpl in *; congruence.
Qed.

(** X18. The decimal form of an integer, typed into the progress field, is
    read back as that integer as long as its magnitude is at most 2^53;
    beyond that [parseInt] gives a double of which only the sign is known.
    Either way the value the editor holds is the integer clamped to
    [0,100]. *)
Theorem typed_integer_round_trip :
  forall (z : Z) ed,
    ((- 2 ^ 53 <= z <= 2 ^ 53)%Z ->
       Strategy.parseInt (JS.of_Z z) = Strategy.Int z)
    /\ ((2 ^ 53 < z)%Z -> Strategy.parseInt (JS.of_Z z) = Strategy.Above)
    /\ ((z < - 2 ^ 53)%Z -> Strategy.parseInt (JS.of_Z z) = Strategy.Below)
    /\ Strategy.progressValue (Strategy.onChange ed (JS.of_Z z))
       = Z.min 100 (Z.max 0 z).
Proof.
  intros z ed.
  assert (H : Strategy.parseInt (JS.of_Z z) = Strategy.toNum z)
    by (unfold Strategy.parseInt; rewrite mathInt_of_Z; reflexivity).
  rewrite H. unfold Strategy.toNum.
  split; [|split; [|split]].
  - intros Hz. destruct (Z.ltb_spec (2 ^ 53) z); [lia|].
    destruct (Z.ltb_spec z (- 2 ^ 53)); [lia|reflexivity].
  - intros Hz. destruct (Z.ltb_spec (2 ^ 53) z); [reflexivity|lia].
  - intros Hz. destruct (Z.ltb_spec (2 ^ 53) z); [lia|].
    destruct (Z.ltb_spec z (- 2 ^ 53)); [reflexivity|lia].
  - cbn [Strategy.onChange Strategy.progressValue]. unfold Strategy.clampInput.
    rewrite H. unfold Strategy.toNum.
    destruct (Z.ltb_spec (2 ^ 53) z); [lia|].
    destruct (Z.ltb_spec z (- 2 ^ 53)); [lia|].
    destruct (Z.eqb_spec z 0); subst; lia.
Qed.

Lemma typed_integer_round_trip_witness :
  (- 2 ^ 53 <= 150 <= 2 ^ 53)%Z
  /\ (2 ^ 53 < 9007199254740993)%Z
  /\ Strategy.parseInt (JS.of_Z 150) = Strategy.Int 150
  /\ Strategy.parseInt (JS.of_Z 9007199254740993) = Strategy.Above
  /\ Strategy.progressValue
       (Strategy.onChange (Strategy.startProgressEdit "g1" 40)
          (JS.of_Z 9007199254740993)) = 100%Z.
Proof.
  assert (H1 : (- 2 ^ 53 <= 150 <= 2 ^ 53)%Z) by lia.
  assert (H2 : (2 ^ 53 < 9007199254740993)%Z) by lia.
  split; [exact H1|]. split; [exact H2|].
  split; [exact (proj1 (typed_integer_round_trip 150
                          (Strategy.startProgressEdit "g1" 40)) H1)|].
  split; [exact (proj1 (proj2 (typed_integer_round_trip 9007199254740993
                                 (Strategy.startProgressEdit "g1" 40))) H2)|].
  exact (proj2 (proj2 (proj2 (typed_integer_round_trip 9007199254740993
                                (Strategy.startProgressEdit "g1" 40))))).
Defined.

(** ** Derived counters *)

Lemma pending_cons t r :
  pendingTaskCount (t :: r) = (pendingBit t + pendingTaskCount r)%nat.
Proof.
  unfold pendingTaskCount, pendingBit. cbn [List.filter].
  destruct (_ && _); reflexivity.
Qed.

Lemma complete_counts i ts :
  unique_task_ids ts ->
  forall t, In t ts -> Task.id t = i ->
  (pendingTaskCount
     (List.map (fun x => if String.eqb (Task.id x) i
                         then Task.with_status x completed else x) ts)
   + pendingBit t = pendingTaskCount ts)%nat.
Proof.
  unfold unique_task_ids.
  induction ts as [|a r IH]; intros Hnd t Hin Hid; [contradiction|].
  cbn [List.map]. rewrite !pending_cons.
  inversion Hnd as [|? ? Hnotin Hnd']; subst.
  destruct Hin as [->|Hin].
  - rewrite String.eqb_refl.
    rewrite (map_absent Task.id (fun x => Task.with_status x completed) _ r Hnotin).
    unfold pendingBit at 1. simpl. rewrite andb_false_r. lia.
  - destruct (String.eqb_spec (Task.id a) (Task.id t)) as [E|NE].
    + exfalso. apply Hnotin. rewrite E. apply in_map. exact Hin.
    + specialize (IH Hnd' t Hin eq_refl). lia.
Qed.

(** X19. The badges follow the store as soon as it is written: capturing
    an idea raises the new-idea count by one before the remote call
    resolves; creating a task raises the pending-task count by one when
    the task is assigned to the operator and leaves it as it is otherwise;
    completing a task (ids being distinct) lowers the pending-task count by
    one when the task counted and leaves it as it is otherwise. *)
Theorem counters_follow_mutations :
  forall (iso : N -> string) clk isLive w,
    (forall data,
        newIdeaCount (featureRequests (paused_store
           (start clk (handleCreateFeatureRequest iso isLive data) w)))
        = S (newIdeaCount (featureRequests (store w))))
    /\ (forall projects data,
        pendingTaskCount (tasks (paused_store
           (start clk (handleCreateTask iso isLive projects data) w)))
        = ((if String.eqb (td_assignedTo data) "tiger" then 1 else 0)
           + pendingTaskCount (tasks (store w)))%nat)
    /\ (forall env snapshot t,
        unique_task_ids (tasks (store w)) -> In t (tasks (store w)) ->
        (pendingTaskCount (tasks (store
            (exec env (handleUpdateTaskStatus isLive snapshot (Task.id t) completed) w)))
         + pendingBit t
         = pendingTaskCount (tasks (store w)))%nat).
Proof.
  intros iso clk isLive w. split; [|split].
  - intros data. unfold handleCreateFeatureRequest. destruct isLive; reflexivity.
  - intros projects data. unfold handleCreateTask.
    destruct isLive; simpl; rewrite pending_cons; unfold pendingBit; simpl;
      rewrite andb_true_r; reflexivity.
  - intros env snapshot t Hu Hin. rewrite statusUpdate_commits.
    apply complete_counts; auto.
Qed.

Lemma counters_follow_mutations_witness :
  unique_task_ids (tasks boardStore)
  /\ In taskA (tasks boardStore)
  /\ (pendingTaskCount (tasks (store
        (exec env42 (handleUpdateTaskStatus true [] (Task.id taskA) completed)
           (freshWorld boardStore))))
      + pendingBit taskA
      = pendingTaskCount (tasks boardStore))%nat.
Proof.
  assert (Hu : unique_task_ids (tasks boardStore)).
  { unfold unique_task_ids. simpl.
    repeat constructor; simpl; intuition discriminate. }
  assert (Hin : In taskA (tasks boardStore)) by (left; reflexivity).
  split; [exact Hu|]. split; [exact Hin|].
  exact (proj2 (proj2 (counters_follow_mutations fixedISO (clock env42) true
                         (freshWorld boardStore)))
           env42 [] taskA Hu Hin).
Defined.

(** ** Agents *)








(** X22. The tool list sent from the agent page has no empty entry and no
    entry with whitespace at either end. *)
Theorem agent_tool_list_is_clean :
  forall v x, In x (AgentDetail.toolList v) ->
    x <> "" /\ starts_with_space x = false /\ ends_with_space x = false.
Proof.
  intros v x H. unfold AgentDetail.toolList in H.
  apply filter_In in H. destruct H as [H Ht].
  apply in_map_iff in H. destruct H as (y & <- & _).
  split; [apply truthy_ne; exact Ht|apply trim_edges].
Qed.

(** Two tools typed with a blank line and stray spaces. *)
Lemma agent_tool_list_is_clean_witness :
  AgentDetail.toolList (String "s" (String (ascii_of_nat 10) (String (ascii_of_nat 10) " web ")))
  = ["s"; "web"]
  /\ "web" <> "" /\ starts_with_space "web" = false /\ ends_with_space "web" = false.
Proof.
  split; [reflexivity|].
  exact (agent_tool_list_is_clean
           (String "s" (String (ascii_of_nat 10) (String (ascii_of_nat 10) " web ")))
           "web" (or_intror (or_introl eq_refl))).
Defined.

(** ** The activity feed as loaded *)

(** X23. The age label of a loaded activity entry: "Just now" under one
    minute (and for an entry dated in the future), whole minutes from 1 to
    59 under one hour, whole hours from then on, with no larger unit. *)
Theorem activity_time_label :
  forall getTime now a created,
    getTime (rac_created_at a) = Some created ->
    let d := (now - created)%Z in
    let label := ActivityItem.timestamp (mapActivity getTime now a) in
    (d < 60000 -> label = "Just now")%Z
    /\ (60000 <= d < 3600000 ->
        label = (JS.of_Z (d / 60000) ++ "m ago")%string /\ 1 <= d / 60000 <= 59)%Z
    /\ (3600000 <= d ->
        label = (JS.of_Z (d / 3600000) ++ "h ago")%string /\ 1 <= d / 3600000)%Z.
Proof.
  intros getTime now a created Hg d label. subst label.
  unfold mapActivity. simpl. rewrite Hg. simpl. fold d. unfold timeStr.
  split; [|split]; intros H.
  - assert (d / 60000 < 1)%Z by (apply Z.div_lt_upper_bound; lia).
    destruct (Z.ltb_spec (d / 60000) 1); [reflexivity|lia].
  - assert (1 <= d / 60000)%Z by (apply Z.div_le_lower_bound; lia).
    assert (d / 60000 < 60)%Z by (apply Z.div_lt_upper_bound; lia).
    destruct (Z.ltb_spec (d / 60000) 1); [lia|].
    destruct (Z.ltb_spec (d / 60000) 60); [|lia]. split; [reflexivity|lia].
  - assert (60 <= d / 60000)%Z by (apply Z.div_le_lower_bound; lia).
    destruct (Z.ltb_spec (d / 60000) 1); [lia|].
    destruct (Z.ltb_spec (d / 60000) 60); [lia|].
    rewrite Z.div_div by lia. change (60000 * 60)%Z with 3600000%Z.
    split; [reflexivity|]. apply Z.div_le_lower_bound; lia.
Qed.

(** An entry created five minutes before the clock value. *)
Lemma activity_time_label_witness :
  (60000 <= 1300000 - 1000000 < 3600000)%Z
  /\ ActivityItem.timestamp
       (mapActivity (fun _ => Some 1000000%Z) 1300000%Z loggedActivity)
     = "5m ago".
Proof.
  assert (H : (60000 <= 1300000 - 1000000 < 3600000)%Z) by lia.
  split; [exact H|].
  exact (proj1 (proj1 (proj2 (activity_time_label (fun _ => Some 1000000%Z)
                                1300000%Z loggedActivity 1000000%Z eq_refl)) H)).
Defined.

(** ** Frames and reconciliation *)

Ltac framed :=
  unfold differs_only_in; simpl;
  repeat match goal with
  | |- context [List.find ?f ?l] => destruct (List.find f l)
  end; simpl;
  repeat split; solve [right; reflexivity | left; simpl; tauto].

Ltac framed_create env :=
  unfold differs_only_in; simpl;
  match goal with
  | |- context [gateway env ?c] => destruct (gateway env c) as [[|r rs]|]
  end; simpl;
  repeat split; solve [right; reflexivity | left; simpl; tauto].

(** X24. Each handler writes its own collection and, where it logs, the
    activity feed, and nothing else, live or offline and whatever the
    remote store answers; the one handler that reaches across is the
    project delete, which also rewrites the Task collection. *)
Theorem handlers_keep_to_their_collections :
  forall (iso : N -> string) env isLive w,
    let after p := store (exec env p w) in
    (forall snapshot taskId status,
        differs_only_in [Tasks; Activity] (store w)
          (after (handleUpdateTaskStatus isLive snapshot taskId status)))
    /\ (forall snapshot taskId updates,
        differs_only_in [Tasks; Activity] (store w)
          (after (handleUpdateTask isLive snapshot taskId updates)))
    /\ (forall snapshot data,
        differs_only_in [Tasks; Activity] (store w)
          (after (handleCreateTask iso isLive snapshot data)))
    /\ (forall snapshot taskId,
        differs_only_in [Tasks; Activity] (store w)
          (after (handleDeleteTask isLive snapshot taskId)))
    /\ (forall snapshot projectId updates,
        differs_only_in [Projects; Activity] (store w)
          (after (handleUpdateProject isLive snapshot projectId updates)))
    /\ (forall departments snapshot data,
        differs_only_in [Projects; Activity] (store w)
          (after (handleCreateProject iso isLive departments snapshot data)))
    /\ (forall snapshot projectId,
        differs_only_in [Projects; Tasks; Activity] (store w)
          (after (handleDeleteProject isLive snapshot projectId)))
    /\ (forall snapshot goalId updates,
        differs_only_in [Goals; Activity] (store w)
          (after (handleUpdateGoal isLive snapshot goalId updates)))
    /\ (forall snapshot data,
        differs_only_in [Goals; Activity] (store w)
          (after (handleCreateGoal isLive snapshot data)))
    /\ (forall snapshot goalId,
        differs_only_in [Goals; Activity] (store w)
          (after (handleDeleteGoal isLive snapshot goalId)))
    /\ (forall data,
        differs_only_in [FeatureRequests; Activity] (store w)
          (after (handleCreateFeatureRequest iso isLive data)))
    /\ (forall id updates,
        differs_only_in [FeatureRequests] (store w)
          (after (handleUpdateFeatureRequest iso isLive id updates)))
    /\ (forall id,
        differs_only_in [FeatureRequests] (store w)
          (after (handleDeleteFeatureRequest isLive id)))
    /\ (forall agentId updates,
        differs_only_in [Agents] (store w)
          (after (handleUpdateAgent isLive agentId updates))).
Proof.
  intros iso env isLive w after. subst after. cbv beta.
  split; [intros; unfold handleUpdateTaskStatus; destruct isLive; framed|].
  split; [intros; unfold handleUpdateTask; destruct isLive; framed|].
  split; [intros; unfold handleCreateTask; destruct isLive; [framed_create env|framed]|].
  split; [intros; unfold handleDeleteTask; destruct isLive; framed|].
  split; [intros; unfold handleUpdateProject; destruct isLive; framed|].
  split; [intros; unfold handleCreateProject; destruct isLive; [framed_create env|framed]|].
  split; [intros; unfold handleDeleteProject; destruct isLive; framed|].
  split; [intros; unfold handleUpdateGoal; destruct isLive; framed|].
  split; [intros; unfold handleCreateGoal; destruct isLive; [framed_create env|framed]|].
  split; [intros; unfold handleDeleteGoal; destruct isLive; framed|].
  split; [intros; unfold handleCreateFeatureRequest; destruct isLive; [framed_create env|framed]|].
  split; [intros; unfold handleUpdateFeatureRequest; destruct isLive; framed|].
  split; [intros; unfold handleDeleteFeatureRequest; destruct isLive; framed|].
  intros; unfold handleUpdateAgent; destruct isLive; framed.
Qed.

Lemma replace_ids {A} (id : A -> string) key by_ l :
  List.map id (replace_by_id id key by_ l)
  = List.map (fun k => if String.eqb k key then id by_ else k) (List.map id l).
Proof.
  unfold replace_by_id. rewrite !map_map. apply map_ext. intros x.
  destruct (String.eqb (id x) key); reflexivity.
Qed.

(** X25. When the create call of a task resolves with a row whose id is
    not the temporary one, no task carries the temporary id afterwards, no
    task is added or removed, and the remote id is in the collection
    exactly when the temporary id (or already the remote id) was there at
    that time: a task deleted while its create call was in flight is not
    brought back. *)
Theorem reconcile_retires_temp_id :
  forall (iso : N -> string) env projects data w edits row,
    let p := start (clock env) (handleCreateTask iso true projects data) w in
    let temp := tempId (clock env (ticks w)) in
    answered env p = Some row ->
    row_id row <> temp ->
    let before := List.map Task.id (tasks (edits (paused_store p))) in
    let after := List.map Task.id (tasks (store (settle env p edits))) in
    ~ In temp after
    /\ (In (row_id row) after <-> In temp before \/ In (row_id row) before)
    /\ List.length after = List.length before.
Proof.
  intros iso env projects data w edits row p temp Ha Hne before after.
  destruct (createTask_reconciles iso env projects data w edits row Ha)
    as (e & H1 & H2).
  destruct (createTask_inserts iso (clock env) true projects data w)
    as (e' & H1' & Hid).
  fold p in H1, H2, H1'. rewrite H1 in H1'. inversion H1'; subst e'.
  unfold after. rewrite H2, replace_ids. fold before. rewrite Hid. fold temp.
  simpl Task.id.
  split; [|split].
  - intros Hin. apply in_map_iff in Hin. destruct Hin as (k & Hk & _).
    destruct (String.eqb_spec k temp); congruence.
  - split.
    + intros Hin. apply in_map_iff in Hin. destruct Hin as (k & Hk & Hin).
      destruct (String.eqb_spec k temp); subst; auto.
    + intros [Hin|Hin]; apply in_map_iff.
      * exists temp. rewrite String.eqb_refl. auto.
      * exists (row_id row). split; auto.
        destruct (String.eqb_spec (row_id row) temp); congruence.
  - apply length_map.
Qed.

(** The create of [draft], retitled in flight and then resolved. *)
Lemma reconcile_retires_temp_id_witness :
  answered env42 draftPaused = Some row42
  /\ row_id row42 <> tempId 1000
  /\ ~ In "temp-1000"
        (List.map Task.id (tasks (store (settle env42 draftPaused retitle)))).
Proof.
  assert (Hne : row_id row42 <> tempId 1000) by (intros H; discriminate H).
  split; [reflexivity|]. split; [exact Hne|].
  exact (proj1 (reconcile_retires_temp_id fixedISO env42 [] draft
                  (freshWorld emptyStore) retitle row42 eq_refl Hne)).
Defined.
